(** * Two-move chess: the variant turn controller of [backend/application.py]

    The Flask backend keeps one process-wide match ([game_state], a dict
    with the keys ['board'] and ['moves_left']) behind [game_lock], a
    [threading.Lock].  Three request handlers work on it:
    [get_game_state], [new_game] and [make_move].

    The chess rules come from the python-chess package, which is not part
    of the repository.  The controller is therefore written over an
    interface, [RulesEngine], that lists exactly the calls the handlers
    make on [chess.Board] and [chess.Move]; [PyChess] further down is an
    executable instance for standard chess.

    What is modelled and how:
    - [game_state] is a record with the two keys, [moves_left] an
      unbounded integer;
    - [game_lock] is a flag in the state, and a handler is a function from
      the state to an outcome: it returns, or it waits for the lock.
      Requests are served one after the other, so a lock that is found
      held stays held;
    - the body of a move request is a JSON object whose ['move'] entry is
      missing, [null] or a string;
    - Flask's routing, [jsonify] and the status codes are left out: a
      response is the JSON object itself. *)

From Stdlib Require Import ZArith List String Ascii Bool Lia DecimalString.
From Stdlib Require DecimalZ.
Import ListNotations.

Open Scope Z_scope.
Open Scope string_scope.

(** ** The rules engine consumed by the handlers *)

Class RulesEngine : Type := {
  Board : Type;
  Move : Type;
  (** [chess.Board()] *)
  new_board : Board;
  (** [board.is_game_over()] *)
  is_game_over : Board -> bool;
  (** [board.result()]: "1-0", "0-1", "1/2-1/2" or "*" *)
  result : Board -> string;
  (** [board.turn]; [chess.WHITE] is [True] *)
  turn : Board -> bool;
  (** [board.fen()] *)
  fen : Board -> string;
  (** [chess.Move.from_uci(s)]; [None] stands for the raised [ValueError] *)
  from_uci : string -> option Move;
  (** [move in board.legal_moves] *)
  is_legal : Board -> Move -> bool;
  (** [board.is_capture(move)] *)
  is_capture : Board -> Move -> bool;
  (** [board.push(move)]: the board object after the in-place update *)
  push : Board -> Move -> Board
}.

(** [f"{n}"] for a Python int. *)
Definition str_of_int (n : Z) : string :=
  NilZero.string_of_int (Z.to_int n).

Section Controller.

Context {engine : RulesEngine}.

(** *** State *)

(** The dict [game_state]; both keys are set by [initialize_game] before
    any handler can run. *)
Record GameState : Type := mkGameState {
  board : Board;
  moves_left : Z
}.

(** The module-level globals: the dict and whether [game_lock] is
    currently held. *)
Record World : Type := mkWorld {
  game_state : GameState;
  game_lock : bool
}.

(** What a handler hands to Flask: [jsonify(state)] (status 200) or
    [jsonify({"error": msg}), 400]. *)
Inductive Response : Type :=
| JsonState (fen_ : string) (isGameOver : bool) (statusMessage : string)
| JsonError (error : string).

(** *** Handlers as state transformers

    [threading.Lock] is not reentrant: [acquire] on a held lock waits
    until the lock is released, also when the caller is the holder.  A
    handler either returns a value and a new world, or is left waiting in
    [game_lock.acquire()] with the world as it then is. *)
Inductive Outcome (A : Type) : Type :=
| Returned (a : A) (w : World)
| Blocked (w : World).

Arguments Returned {A} a w.
Arguments Blocked {A} w.

Definition Op (A : Type) : Type := World -> Outcome A.

Definition ret {A} (a : A) : Op A := fun w => Returned a w.

Definition bind {A B} (m : Op A) (k : A -> Op B) : Op B :=
  fun w =>
    match m w with
    | Returned a w' => k a w'
    | Blocked w' => Blocked w'
    end.

Definition get_state : Op GameState := fun w => Returned (game_state w) w.

Definition set_board (b : Board) : Op unit :=
  fun w =>
    Returned tt (mkWorld (mkGameState b (moves_left (game_state w)))
                         (game_lock w)).

Definition set_moves_left (n : Z) : Op unit :=
  fun w =>
    Returned tt (mkWorld (mkGameState (board (game_state w)) n)
                         (game_lock w)).

(** [with game_lock: body]: wait for the lock, run the body, release on
    the way out (also when the body leaves through [return]). *)
Definition with_game_lock {A} (body : Op A) : Op A :=
  fun w =>
    if game_lock w then Blocked w
    else
      match body (mkWorld (game_state w) true) with
      | Returned a w' => Returned a (mkWorld (game_state w') false)
      | Blocked w' => Blocked w'
      end.

(** The world the process is left in once the handler has returned or
    has stopped making progress. *)
Definition world_of {A} (o : Outcome A) : World :=
  match o with
  | Returned _ w => w
  | Blocked w => w
  end.

(** What the caller receives, if anything. *)
Definition response_of {A} (o : Outcome A) : option A :=
  match o with
  | Returned a _ => Some a
  | Blocked _ => None
  end.

End Controller.

Arguments Returned {engine A} a w.
Arguments Blocked {engine A} w.

Declare Scope op_scope.
Delimit Scope op_scope with op.
Notation "x <- m ;; k" := (bind m (fun x => k))
  (at level 61, m at next level, right associativity) : op_scope.
Notation "m ;;; k" := (bind m (fun _ => k))
  (at level 61, right associativity) : op_scope.

Section Handlers.

Context {engine : RulesEngine}.
Local Open Scope op_scope.

(** [initialize_game] *)
Definition initialize_game : Op unit :=
  with_game_lock
    (set_board new_board ;;;
     set_moves_left 1).

(** [get_status_message]; it reads [game_state] and takes no lock. *)
Definition get_status_message (gs : GameState) : string :=
  let board := board gs in
  if is_game_over board then
    let result := result board in
    if result =? "1-0" then "Game Over: White wins!"
    else if result =? "0-1" then "Game Over: Black wins!"
    else if result =? "1/2-1/2" then "Game Over: Draw!"
    else "Game Over! " ++ result
  else
    let turn := if turn board then "White" else "Black" in
    let moves := moves_left gs in
    turn ++ " to move (" ++ str_of_int moves ++ " "
         ++ (if moves =? 1 then "move" else "moves")%Z ++ " left)".

(** [get_game_state] *)
Definition get_game_state : Op Response :=
  with_game_lock
    (gs <- get_state ;;
     ret (JsonState (fen (board gs))
                    (is_game_over (board gs))
                    (get_status_message gs))).

(** [new_game] *)
Definition new_game : Op Response :=
  initialize_game ;;;
  get_game_state.

(** [not move_uci] for the value of [request.json.get('move')]: the key
    is absent ([None]) or the string is empty. *)
Definition not_provided (move_uci : option string) : bool :=
  match move_uci with
  | None => true
  | Some s => (s =? "")
  end.

(** [make_move]; [move_uci] is [request.json.get('move')], a string or
    [None].  The [try] block covers everything from [from_uci] on; only
    [from_uci] raises [ValueError]. *)
Definition make_move (move_uci : option string) : Op Response :=
  with_game_lock
    (gs <- get_state ;;
     let board := board gs in
     if is_game_over board then ret (JsonError "Game is over")
     else
       match move_uci with
       | None => ret (JsonError "Move not provided")
       | Some uci =>
         if uci =? "" then ret (JsonError "Move not provided")
         else
           match from_uci uci with
           | None => ret (JsonError ("Invalid move format: " ++ uci))
           | Some move =>
             if is_legal board move then
               let is_capture := is_capture board move in
               set_board (push board move) ;;;
               set_moves_left (moves_left gs - 1) ;;;
               gs' <- get_state ;;
               (if (moves_left gs' =? 0)%Z
                then set_moves_left (if is_capture then 2 else 1)
                else ret tt) ;;;
               get_game_state
             else ret (JsonError ("Illegal move: " ++ uci))
           end
       end).

(** *** Runs of requests *)

Inductive Request : Type :=
| GetState
| NewGame
| ApplyMove (move_uci : option string).

Definition handle (r : Request) : Op Response :=
  match r with
  | GetState => get_game_state
  | NewGame => new_game
  | ApplyMove t => make_move t
  end.

(** The world once the module is imported: [game_state = {}] has been
    filled by the module-level call [initialize_game()] and the lock is
    free again. *)
Definition initial_world : World :=
  mkWorld (mkGameState new_board 1) false.

(** Requests served one after the other; a request left waiting on the
    lock leaves the world as it is. *)
Fixpoint run (rs : list Request) (w : World) : World :=
  match rs with
  | [] => w
  | r :: rs' => run rs' (world_of (handle r w))
  end.

(** [board.push_uci(uci)] where it succeeds, for building positions: the
    move is parsed and, when legal, pushed; otherwise the board is kept. *)
Definition push_uci (b : Board) (uci : string) : Board :=
  match from_uci uci with
  | Some move => if is_legal b move then push b move else b
  | None => b
  end.

(** The board reached from the starting position by a line of play. *)
Definition position_after (line : list string) : Board :=
  fold_left push_uci line new_board.

(** A world with the given match state and the lock free. *)
Definition at_rest (b : Board) (moves : Z) : World :=
  mkWorld (mkGameState b moves) false.

(** *** Vocabulary of the specification *)

(** The snapshot every operation answers with: serialized position,
    game-over flag and status message of a match state. *)
Definition snapshot (gs : GameState) : Response :=
  JsonState (fen (board gs)) (is_game_over (board gs)) (get_status_message gs).

(** The four ways [ApplyMove] fails. *)
Inductive MoveError : Type :=
| GameOverError
| MissingMoveError
| InvalidMoveFormatError (token : string)
| IllegalMoveError (token : string).

(** The message the handler puts under ["error"] for each of them. *)
Definition error_message (e : MoveError) : string :=
  match e with
  | GameOverError => "Game is over"
  | MissingMoveError => "Move not provided"
  | InvalidMoveFormatError token => "Invalid move format: " ++ token
  | IllegalMoveError token => "Illegal move: " ++ token
  end.

(** The move token is one the rules engine cannot parse. *)
Definition unparsable (move_uci : option string) : Prop :=
  exists uci, move_uci = Some uci /\ from_uci uci = None.

(** The move token parses to a move that is not legal on [b]. *)
Definition illegal_on (b : Board) (move_uci : option string) : Prop :=
  exists uci move,
    move_uci = Some uci /\ from_uci uci = Some move /\ is_legal b move = false.

(** The move token passes all four preconditions on [b] and parses to
    [move]. *)
Definition accepted_on (b : Board) (move_uci : option string) (move : Move)
  : Prop :=
  is_game_over b = false
  /\ not_provided move_uci = false
  /\ (exists uci, move_uci = Some uci /\ from_uci uci = Some move)
  /\ is_legal b move = true.

(** The allowance is 1 or 2. *)
Definition allowance_ok (w : World) : Prop :=
  moves_left (game_state w) = 1%Z \/ moves_left (game_state w) = 2%Z.

(** The world in which an accepted [move] leaves the process: the move
    is on the board, the allowance is updated, the lock is held. *)
Definition after_move (w : World) (move : Move) : World :=
  let gs := game_state w in
  let is_capture := is_capture (board gs) move in
  mkWorld
    (mkGameState
       (push (board gs) move)
       (if (moves_left gs - 1 =? 0)%Z
        then (if is_capture then 2 else 1)
        else moves_left gs - 1)%Z)
    true.

End Handlers.

(** ** An executable rules engine: standard chess in python-chess's
    conventions

    Squares are numbered as in python-chess ([A1 = 0], [B1 = 1], ...,
    [H8 = 63]), colours are booleans with [WHITE = true], moves are
    (from, to, promotion, drop) and are read from UCI notation. *)

Module PyChess.

Local Open Scope Z_scope.

Inductive PieceType : Type := PAWN | KNIGHT | BISHOP | ROOK | QUEEN | KING.

Record Piece : Type := mkPiece { piece_type : PieceType; color : bool }.

Record Move : Type := mkMove {
  from_square : Z;
  to_square : Z;
  promotion : option PieceType;
  drop : option PieceType
}.

(** What a position consists of; [castling_rights] lists the rook
    squares that still carry a castling right. *)
Record Position : Type := mkPosition {
  squares : list (option Piece);
  turn : bool;
  castling_rights : list Z;
  ep_square : option Z;
  halfmove_clock : Z;
  fullmove_number : Z
}.

(** A board is the current position and the stack of the positions the
    pushed moves went through, the latest first. *)
Record Board : Type := mkBoard {
  position : Position;
  stack : list Position
}.

Definition WHITE : bool := true.
Definition BLACK : bool := false.

Definition square (file rank : Z) : Z := rank * 8 + file.
Definition square_file (s : Z) : Z := s mod 8.
Definition square_rank (s : Z) : Z := s / 8.

Definition A1 : Z := 0.
Definition C1 : Z := 2.
Definition D1 : Z := 3.
Definition E1 : Z := 4.
Definition F1 : Z := 5.
Definition G1 : Z := 6.
Definition H1 : Z := 7.
Definition A8 : Z := 56.
Definition C8 : Z := 58.
Definition D8 : Z := 59.
Definition E8 : Z := 60.
Definition F8 : Z := 61.
Definition G8 : Z := 62.
Definition H8 : Z := 63.

Definition on_board (file rank : Z) : bool :=
  (0 <=? file) && (file <? 8) && (0 <=? rank) && (rank <? 8).

Definition piece_type_eqb (a b : PieceType) : bool :=
  match a, b with
  | PAWN, PAWN | KNIGHT, KNIGHT | BISHOP, BISHOP
  | ROOK, ROOK | QUEEN, QUEEN | KING, KING => true
  | _, _ => false
  end.

Definition piece_eqb (a b : Piece) : bool :=
  piece_type_eqb (piece_type a) (piece_type b) && Bool.eqb (color a) (color b).

Definition option_eqb {A} (eqb : A -> A -> bool) (a b : option A) : bool :=
  match a, b with
  | Some x, Some y => eqb x y
  | None, None => true
  | _, _ => false
  end.

Fixpoint list_eqb {A} (eqb : A -> A -> bool) (l l' : list A) : bool :=
  match l, l' with
  | [], [] => true
  | x :: t, y :: t' => eqb x y && list_eqb eqb t t'
  | _, _ => false
  end.

Definition move_eqb (a b : Move) : bool :=
  (from_square a =? from_square b) && (to_square a =? to_square b)
  && option_eqb piece_type_eqb (promotion a) (promotion b)
  && option_eqb piece_type_eqb (drop a) (drop b).

Definition piece_at (sqs : list (option Piece)) (s : Z) : option Piece :=
  if (0 <=? s) && (s <? 64) then nth (Z.to_nat s) sqs None else None.

Definition piece_at_fr (sqs : list (option Piece)) (file rank : Z)
  : option Piece :=
  if on_board file rank then piece_at sqs (square file rank) else None.

Fixpoint set_nth {A} (n : nat) (x : A) (l : list A) : list A :=
  match l, n with
  | [], _ => []
  | _ :: t, O => x :: t
  | y :: t, S n' => y :: set_nth n' x t
  end.

Definition set_piece_at (sqs : list (option Piece)) (s : Z)
           (p : option Piece) : list (option Piece) :=
  if (0 <=? s) && (s <? 64) then set_nth (Z.to_nat s) p sqs else sqs.

Definition is_piece (sqs : list (option Piece)) (file rank : Z)
           (t : PieceType) (c : bool) : bool :=
  option_eqb piece_eqb (piece_at_fr sqs file rank) (Some (mkPiece t c)).

Definition knight_deltas : list (Z * Z) :=
  [(1, 2); (2, 1); (2, -1); (1, -2); (-1, -2); (-2, -1); (-2, 1); (-1, 2)].
Definition king_deltas : list (Z * Z) :=
  [(1, 0); (1, 1); (0, 1); (-1, 1); (-1, 0); (-1, -1); (0, -1); (1, -1)].
Definition rook_directions : list (Z * Z) :=
  [(1, 0); (0, 1); (-1, 0); (0, -1)].
Definition bishop_directions : list (Z * Z) :=
  [(1, 1); (-1, 1); (-1, -1); (1, -1)].

(** The squares seen from (file, rank) along a direction, up to and
    including the first occupied one. *)
Fixpoint ray (sqs : list (option Piece)) (file rank df dr : Z) (steps : nat)
  : list Z :=
  match steps with
  | O => []
  | S n =>
    let f := file + df in
    let r := rank + dr in
    if on_board f r then
      match piece_at sqs (square f r) with
      | Some _ => [square f r]
      | None => square f r :: ray sqs f r df dr n
      end
    else []
  end.

Definition ray_hits (sqs : list (option Piece)) (file rank : Z)
           (d : Z * Z) (c : bool) (ts : list PieceType) : bool :=
  match piece_at sqs (last (ray sqs file rank (fst d) (snd d) 7) (-1)) with
  | Some p => Bool.eqb (color p) c && existsb (piece_type_eqb (piece_type p)) ts
  | None => false
  end.

(** [board.is_attacked_by(c, s)] *)
Definition is_attacked_by (sqs : list (option Piece)) (c : bool) (s : Z)
  : bool :=
  let f := square_file s in
  let r := square_rank s in
  existsb (fun d => is_piece sqs (f + fst d) (r + snd d) KNIGHT c) knight_deltas
  || existsb (fun d => is_piece sqs (f + fst d) (r + snd d) KING c) king_deltas
  || (let back := if c then -1 else 1 in
      is_piece sqs (f - 1) (r + back) PAWN c
      || is_piece sqs (f + 1) (r + back) PAWN c)
  || existsb (fun d => ray_hits sqs f r d c [ROOK; QUEEN]) rook_directions
  || existsb (fun d => ray_hits sqs f r d c [BISHOP; QUEEN]) bishop_directions.

Definition all_squares : list Z := map Z.of_nat (seq 0 64).

(** [board.king(c)]: the highest square with a king of that colour. *)
Definition king (sqs : list (option Piece)) (c : bool) : option Z :=
  find (fun s => option_eqb piece_eqb (piece_at sqs s) (Some (mkPiece KING c)))
       (rev all_squares).

Definition own (sqs : list (option Piece)) (c : bool) (s : Z) : bool :=
  match piece_at sqs s with
  | Some p => Bool.eqb (color p) c
  | None => false
  end.

Definition occupied (sqs : list (option Piece)) (s : Z) : bool :=
  match piece_at sqs s with Some _ => true | None => false end.

Definition plain (from to : Z) : Move := mkMove from to None None.

Definition step_targets (sqs : list (option Piece)) (c : bool) (s : Z)
           (deltas : list (Z * Z)) : list Z :=
  flat_map
    (fun d =>
       let f := square_file s + fst d in
       let r := square_rank s + snd d in
       if on_board f r && negb (own sqs c (square f r))
       then [square f r] else [])
    deltas.

Definition slide_targets (sqs : list (option Piece)) (c : bool) (s : Z)
           (dirs : list (Z * Z)) : list Z :=
  flat_map
    (fun d =>
       filter (fun t => negb (own sqs c t))
              (ray sqs (square_file s) (square_rank s) (fst d) (snd d) 7))
    dirs.

Definition promotions (from to : Z) : list Move :=
  map (fun t => mkMove from to (Some t) None) [QUEEN; ROOK; BISHOP; KNIGHT].

Definition pawn_move (c : bool) (from to : Z) : list Move :=
  if square_rank to =? (if c then 7 else 0)
  then promotions from to else [plain from to].

Definition pawn_moves (p : Position) (s : Z) : list Move :=
  let sqs := squares p in
  let c := turn p in
  let f := square_file s in
  let r := square_rank s in
  let up := if c then 1 else -1 in
  let captures :=
    flat_map
      (fun df =>
         if on_board (f + df) (r + up)
            && own sqs (negb c) (square (f + df) (r + up))
         then pawn_move c s (square (f + df) (r + up)) else [])
      [-1; 1] in
  let single :=
    if on_board f (r + up) && negb (occupied sqs (square f (r + up)))
    then pawn_move c s (square f (r + up)) else [] in
  let double :=
    if (r =? (if c then 1 else 6))
       && negb (occupied sqs (square f (r + up)))
       && negb (occupied sqs (square f (r + 2 * up)))
    then [plain s (square f (r + 2 * up))] else [] in
  let en_passant :=
    match ep_square p with
    | Some e =>
      if negb (occupied sqs e)
         && (r =? (if c then 4 else 3))
         && (square_rank e =? r + up)
         && ((square_file e =? f - 1) || (square_file e =? f + 1))
      then [plain s e] else []
    | None => []
    end in
  captures ++ single ++ double ++ en_passant.

(** [board.clean_castling_rights()] for standard chess: a right needs
    the king on its home square and a rook on the corner. *)
Definition clean_castling_rights (p : Position) : list Z :=
  filter
    (fun rook =>
       let c := (rook <? 8) in
       is_piece (squares p) 4 (if c then 0 else 7) KING c
       && option_eqb piece_eqb (piece_at (squares p) rook)
                     (Some (mkPiece ROOK c))
       && existsb (Z.eqb rook) [A1; H1; A8; H8])
    (castling_rights p).

Definition has_right (p : Position) (rook : Z) : bool :=
  existsb (Z.eqb rook) (clean_castling_rights p).

(** [board.generate_castling_moves()] for standard chess *)
Definition castling_moves (p : Position) : list Move :=
  let sqs := squares p in
  let c := turn p in
  let r := if c then 0 else 7 in
  let free := fun fs => forallb (fun f => negb (occupied sqs (square f r))) fs in
  let safe := fun fs =>
    forallb (fun f => negb (is_attacked_by sqs (negb c) (square f r))) fs in
  (if has_right p (square 7 r) && free [5; 6] && safe [4; 5; 6]
   then [plain (square 4 r) (square 6 r)] else [])
  ++
  (if has_right p (square 0 r) && free [1; 2; 3] && safe [4; 3; 2]
   then [plain (square 4 r) (square 2 r)] else []).

Definition piece_moves (p : Position) (s : Z) : list Move :=
  let sqs := squares p in
  let c := turn p in
  match piece_at sqs s with
  | Some pc =>
    if Bool.eqb (color pc) c then
      match piece_type pc with
      | PAWN => pawn_moves p s
      | KNIGHT => map (plain s) (step_targets sqs c s knight_deltas)
      | BISHOP => map (plain s) (slide_targets sqs c s bishop_directions)
      | ROOK => map (plain s) (slide_targets sqs c s rook_directions)
      | QUEEN =>
        map (plain s)
            (slide_targets sqs c s (rook_directions ++ bishop_directions))
      | KING => map (plain s) (step_targets sqs c s king_deltas)
      end
    else []
  | None => []
  end.

(** [board.pseudo_legal_moves] *)
Definition pseudo_legal_moves (p : Position) : list Move :=
  flat_map (piece_moves p) all_squares ++ castling_moves p.

(** [board.is_castling(move)]: the king moves two files, or onto a rook
    of its own side. *)
Definition is_castling (p : Position) (m : Move) : bool :=
  match piece_at (squares p) (from_square m) with
  | Some pc =>
    piece_type_eqb (piece_type pc) KING
    && ((1 <? Z.abs (square_file (from_square m) - square_file (to_square m)))
        || option_eqb piece_eqb (piece_at (squares p) (to_square m))
                      (Some (mkPiece ROOK (turn p))))
  | None => false
  end.

(** [board.is_en_passant(move)] *)
Definition is_en_passant (p : Position) (m : Move) : bool :=
  option_eqb Z.eqb (ep_square p) (Some (to_square m))
  && match piece_at (squares p) (from_square m) with
     | Some pc => piece_type_eqb (piece_type pc) PAWN
     | None => false
     end
  && existsb (Z.eqb (Z.abs (to_square m - from_square m))) [7; 9]
  && negb (occupied (squares p) (to_square m)).

(** The piece placement [board.push(move)] leaves behind. *)
Definition move_pieces (p : Position) (m : Move) : list (option Piece) :=
  let sqs := squares p in
  let c := turn p in
  let from := from_square m in
  let to := to_square m in
  let moved :=
    match promotion m with
    | Some t => Some (mkPiece t c)
    | None => piece_at sqs from
    end in
  if is_castling p m then
    let r := square_rank from in
    let a_side := (square_file to <? square_file from) in
    let rook_from := square (if a_side then 0 else 7) r in
    let king_to := square (if a_side then 2 else 6) r in
    let rook_to := square (if a_side then 3 else 5) r in
    set_piece_at
      (set_piece_at
         (set_piece_at (set_piece_at sqs from None) rook_from None)
         king_to (Some (mkPiece KING c)))
      rook_to (Some (mkPiece ROOK c))
  else
    let sqs1 :=
      if is_en_passant p m
      then set_piece_at sqs (to + (if c then -8 else 8)) None
      else sqs in
    set_piece_at (set_piece_at sqs1 from None) to moved.

(** [board.is_into_check(move)] *)
Definition is_into_check (p : Position) (m : Move) : bool :=
  let sqs' := move_pieces p m in
  match king sqs' (turn p) with
  | Some k => is_attacked_by sqs' (negb (turn p)) k
  | None => false
  end.

(** [board.legal_moves] *)
Definition legal_moves (p : Position) : list Move :=
  filter (fun m => negb (is_into_check p m)) (pseudo_legal_moves p).

(** [board.is_check()] *)
Definition is_check (p : Position) : bool :=
  match king (squares p) (turn p) with
  | Some k => is_attacked_by (squares p) (negb (turn p)) k
  | None => false
  end.

Definition null_move : Move := mkMove 0 0 None None.

(** [bool(move)] is false for the null move only. *)
Definition is_null (m : Move) : bool := move_eqb m null_move.

(** [board._from_chess960] outside Chess960: a king on its home square
    sent to the corner rook is read as castling. *)
Definition from_chess960 (p : Position) (m : Move) : Move :=
  match promotion m, drop m with
  | None, None =>
    let king_on := fun s =>
      match piece_at (squares p) s with
      | Some pc => piece_type_eqb (piece_type pc) KING
      | None => false
      end in
    if (from_square m =? E1) && king_on E1 then
      if to_square m =? H1 then plain E1 G1
      else if to_square m =? A1 then plain E1 C1
      else m
    else if (from_square m =? E8) && king_on E8 then
      if to_square m =? H8 then plain E8 G8
      else if to_square m =? A8 then plain E8 C8
      else m
    else m
  | _, _ => m
  end.

(** [board.is_pseudo_legal(move)] *)
Definition is_pseudo_legal (p : Position) (m : Move) : bool :=
  negb (is_null m)
  && match drop m with Some _ => false | None => true end
  && own (squares p) (turn p) (from_square m)
  && (existsb (move_eqb (from_chess960 p m)) (castling_moves p)
      || existsb (move_eqb m) (piece_moves p (from_square m))).

(** [board.is_legal(move)], the test behind [move in board.legal_moves] *)
Definition is_legal (b : Board) (m : Move) : bool :=
  is_pseudo_legal (position b) m && negb (is_into_check (position b) m).

(** The squares in [BB_SQUARES[from] ^ BB_SQUARES[to]]. *)
Definition touched (m : Move) : list Z :=
  if from_square m =? to_square m then []
  else [from_square m; to_square m].

(** [board.is_capture(move)] *)
Definition is_capture (b : Board) (m : Move) : bool :=
  let p := position b in
  existsb (own (squares p) (negb (turn p))) (touched m)
  || is_en_passant p m.

(** [board.is_zeroing(move)] *)
Definition is_zeroing (p : Position) (m : Move) : bool :=
  existsb
    (fun s =>
       match piece_at (squares p) s with
       | Some pc =>
         piece_type_eqb (piece_type pc) PAWN
         || Bool.eqb (color pc) (negb (turn p))
       | None => false
       end)
    (touched m).

(** [board.push(move)], for the null move and for the moves [is_legal]
    accepts. *)
Definition push (b : Board) (m : Move) : Board :=
  let p := position b in
  let c := turn p in
  let from := from_square m in
  let to := to_square m in
  let halfmove := if is_zeroing p m then 0 else halfmove_clock p + 1 in
  let fullmove :=
    if c then fullmove_number p else fullmove_number p + 1 in
  if is_null m then
    mkBoard
      (mkPosition (squares p) (negb c) (clean_castling_rights p) None
                  (halfmove_clock p + 1) fullmove)
      (p :: stack b)
  else
    let moved := piece_at (squares p) from in
    let is_type := fun t =>
      match moved with
      | Some pc => piece_type_eqb (piece_type pc) t
      | None => false
      end in
    let rights :=
      filter
        (fun rook =>
           negb (rook =? from) && negb (rook =? to)
           && negb (is_type KING
                    && (square_rank rook =? (if c then 0 else 7))))
        (clean_castling_rights p) in
    let ep :=
      if is_type PAWN && (to - from =? 16) && (square_rank from =? 1)
      then Some (from + 8)
      else if is_type PAWN && (to - from =? -16) && (square_rank from =? 6)
      then Some (from - 8)
      else None in
    mkBoard
      (mkPosition (move_pieces p m) (negb c) rights ep halfmove fullmove)
      (p :: stack b).

(** [board.has_legal_en_passant()] *)
Definition has_legal_en_passant (p : Position) : bool :=
  existsb (is_en_passant p) (legal_moves p).

(** [board._transposition_key()], compared for equality. *)
Definition same_transposition (p q : Position) : bool :=
  list_eqb (option_eqb piece_eqb) (squares p) (squares q)
  && Bool.eqb (turn p) (turn q)
  && list_eqb Z.eqb (clean_castling_rights p) (clean_castling_rights q)
  && option_eqb Z.eqb
       (if has_legal_en_passant p then ep_square p else None)
       (if has_legal_en_passant q then ep_square q else None).

Definition pieces_of (sqs : list (option Piece)) (c : bool) : list (Z * PieceType) :=
  flat_map
    (fun s =>
       match piece_at sqs s with
       | Some pc => if Bool.eqb (color pc) c then [(s, piece_type pc)] else []
       | None => []
       end)
    all_squares.

Definition has_type (ps : list (Z * PieceType)) (ts : list PieceType) : bool :=
  existsb (fun sp => existsb (piece_type_eqb (snd sp)) ts) ps.

Definition dark_square (s : Z) : bool :=
  Z.even (square_file s + square_rank s).

(** [board.has_insufficient_material(c)] *)
Definition has_insufficient_material (sqs : list (option Piece)) (c : bool)
  : bool :=
  let mine := pieces_of sqs c in
  let theirs := pieces_of sqs (negb c) in
  let everyone := (mine ++ theirs)%list in
  if has_type mine [PAWN; ROOK; QUEEN] then false
  else if has_type mine [KNIGHT] then
    (Z.of_nat (List.length mine) <=? 2)
    && negb (has_type theirs [PAWN; KNIGHT; BISHOP; ROOK])
  else if has_type mine [BISHOP] then
    let bishops :=
      filter (fun sp => piece_type_eqb (snd sp) BISHOP) everyone in
    let same_color :=
      negb (existsb (fun sp => dark_square (fst sp)) bishops)
      || negb (existsb (fun sp => negb (dark_square (fst sp))) bishops) in
    same_color && negb (has_type everyone [PAWN; KNIGHT])
  else true.

(** [board.is_insufficient_material()] *)
Definition is_insufficient_material (p : Position) : bool :=
  has_insufficient_material (squares p) WHITE
  && has_insufficient_material (squares p) BLACK.

Definition no_legal_moves (p : Position) : bool :=
  match legal_moves p with [] => true | _ :: _ => false end.

(** [board.is_checkmate()] *)
Definition is_checkmate (p : Position) : bool :=
  is_check p && no_legal_moves p.

(** [board.is_seventyfive_moves()] *)
Definition is_seventyfive_moves (p : Position) : bool :=
  (150 <=? halfmove_clock p) && negb (no_legal_moves p).

(** [board.is_fivefold_repetition()]: the position has occurred four
    times before. *)
Definition is_fivefold_repetition (b : Board) : bool :=
  (4 <=? Z.of_nat (List.length (filter (same_transposition (position b)) (stack b)))).

(** [board.outcome()] with [claim_draw=False]: [None] while the game
    goes on, otherwise the winner ([None] for a draw). *)
Definition outcome (b : Board) : option (option bool) :=
  let p := position b in
  if is_checkmate p then Some (Some (negb (turn p)))
  else if is_insufficient_material p then Some None
  else if no_legal_moves p then Some None
  else if is_seventyfive_moves p then Some None
  else if is_fivefold_repetition b then Some None
  else None.

(** [board.is_game_over()] *)
Definition is_game_over (b : Board) : bool :=
  match outcome b with Some _ => true | None => false end.

(** [board.result()] *)
Definition result (b : Board) : string :=
  match outcome b with
  | Some (Some true) => "1-0"
  | Some (Some false) => "0-1"
  | Some None => "1/2-1/2"
  | None => "*"
  end.

(** *** FEN *)

Local Open Scope string_scope.

(** [piece.symbol()] *)
Definition piece_symbol (pc : Piece) : ascii :=
  match piece_type pc, color pc with
  | PAWN, true => "P" | KNIGHT, true => "N" | BISHOP, true => "B"
  | ROOK, true => "R" | QUEEN, true => "Q" | KING, true => "K"
  | PAWN, false => "p" | KNIGHT, false => "n" | BISHOP, false => "b"
  | ROOK, false => "r" | QUEEN, false => "q" | KING, false => "k"
  end%char.

Definition empty_run (empty : Z) : string :=
  if (empty =? 0)%Z then "" else str_of_int empty.

Fixpoint rank_fen (row : list (option Piece)) (empty : Z) : string :=
  match row with
  | [] => empty_run empty
  | None :: t => rank_fen t (empty + 1)
  | Some pc :: t =>
    empty_run empty ++ String (piece_symbol pc) (rank_fen t 0)
  end.

(** [board.board_fen()] *)
Definition board_fen (sqs : list (option Piece)) : string :=
  String.concat "/"
    (map (fun r =>
            rank_fen (map (fun f => piece_at sqs (square f r))
                          [0; 1; 2; 3; 4; 5; 6; 7]) 0)
         [7; 6; 5; 4; 3; 2; 1; 0]).

(** [chess.SQUARE_NAMES[s]] *)
Definition square_name (s : Z) : string :=
  String (ascii_of_nat (97 + Z.to_nat (square_file s)))
         (String (ascii_of_nat (49 + Z.to_nat (square_rank s))) "").

(** [board.castling_xfen()] for standard chess *)
Definition castling_fen (p : Position) : string :=
  let flag := fun rook (name : string) => if has_right p rook then name else "" in
  let flags := flag H1 "K" ++ flag A1 "Q" ++ flag H8 "k" ++ flag A8 "q" in
  if flags =? "" then "-" else flags.

(** [board.fen()]: the en passant square is written only when an en
    passant capture is legal. *)
Definition fen (b : Board) : string :=
  let p := position b in
  board_fen (squares p) ++ " "
    ++ (if turn p then "w" else "b") ++ " "
    ++ castling_fen p ++ " "
    ++ match ep_square p with
       | Some e => if has_legal_en_passant p then square_name e else "-"
       | None => "-"
       end ++ " "
    ++ str_of_int (halfmove_clock p) ++ " "
    ++ str_of_int (fullmove_number p).

(** *** UCI *)

(** [chess.SQUARE_NAMES.index(name)] for a two-character name *)
Definition square_of_name (f r : ascii) : option Z :=
  let file := (Z.of_nat (nat_of_ascii f) - 97)%Z in
  let rank := (Z.of_nat (nat_of_ascii r) - 49)%Z in
  if on_board file rank then Some (square file rank) else None.

(** [chess.PIECE_SYMBOLS.index(c)] *)
Definition piece_symbol_index (c : ascii) : option PieceType :=
  if (c =? "p")%char then Some PAWN
  else if (c =? "n")%char then Some KNIGHT
  else if (c =? "b")%char then Some BISHOP
  else if (c =? "r")%char then Some ROOK
  else if (c =? "q")%char then Some QUEEN
  else if (c =? "k")%char then Some KING
  else None.

(** [c.lower()] on an ASCII character *)
Definition lower (c : ascii) : ascii :=
  let n := nat_of_ascii c in
  if (65 <=? n)%nat && (n <=? 90)%nat then ascii_of_nat (n + 32) else c.

(** The UTF-8 bytes of the Kelvin sign (U+212A), the one character
    outside ASCII whose [lower()] is a piece symbol ("k"). *)
Definition kelvin_sign (a b c : ascii) : bool :=
  ((nat_of_ascii a =? 226) && (nat_of_ascii b =? 132)
   && (nat_of_ascii c =? 170))%nat.

(** [chess.Move.from_uci(uci)]; [None] is the raised [InvalidMoveError],
    a [ValueError].  The token is the UTF-8 text of the Python string:
    its length in characters is its length in bytes, except for a drop
    written with the Kelvin sign, four characters in six bytes. *)
Definition from_uci (uci : string) : option Move :=
  if uci =? "0000" then Some null_move
  else
    match list_ascii_of_string uci with
    | [a; b; c; d] =>
      if (b =? "@")%char then
        match piece_symbol_index (lower a), square_of_name c d with
        | Some t, Some s => Some (mkMove s s None (Some t))
        | _, _ => None
        end
      else
        match square_of_name a b, square_of_name c d with
        | Some from, Some to =>
          if (from =? to)%Z then None else Some (plain from to)
        | _, _ => None
        end
    | [a; b; c; d; e] =>
      match square_of_name a b, square_of_name c d, piece_symbol_index e with
      | Some from, Some to, Some t =>
        if (from =? to)%Z then None else Some (mkMove from to (Some t) None)
      | _, _, _ => None
      end
    | [k1; k2; k3; b; c; d] =>
      if kelvin_sign k1 k2 k3 && (b =? "@")%char then
        match square_of_name c d with
        | Some s => Some (mkMove s s None (Some KING))
        | None => None
        end
      else None
    | _ => None
    end.

(** *** The starting position *)

Definition back_rank (c : bool) : list (option Piece) :=
  map (fun t => Some (mkPiece t c))
      [ROOK; KNIGHT; BISHOP; QUEEN; KING; BISHOP; KNIGHT; ROOK].

Definition starting_squares : list (option Piece) :=
  (back_rank WHITE
     ++ repeat (Some (mkPiece PAWN WHITE)) 8
     ++ repeat None 32
     ++ repeat (Some (mkPiece PAWN BLACK)) 8
     ++ back_rank BLACK)%list.

(** [chess.Board()] *)
Definition starting_board : Board :=
  mkBoard (mkPosition starting_squares WHITE [A1; H1; A8; H8] None 0 1) [].

(** [chess.Piece.from_symbol(c)] *)
Definition piece_of_symbol (c : ascii) : option Piece :=
  match piece_symbol_index (lower c) with
  | Some t => Some (mkPiece t (negb (Ascii.eqb (lower c) c)))
  | None => None
  end.

(** The piece placement field of a FEN, read rank 8 first; the result
    lists the squares from A1 to H8. *)
Fixpoint squares_of_board_fen (placement : list ascii)
         (rank done : list (option Piece)) : list (option Piece) :=
  match placement with
  | [] => (rank ++ done)%list
  | c :: rest =>
    if (c =? "/")%char then squares_of_board_fen rest [] (rank ++ done)%list
    else
      let n := nat_of_ascii c in
      if (49 <=? n)%nat && (n <=? 56)%nat
      then squares_of_board_fen rest (rank ++ repeat None (n - 48))%list done
      else squares_of_board_fen rest (rank ++ [piece_of_symbol c])%list done
  end.

(** A board set up from a position, with an empty move stack, as
    [chess.Board(fen)] gives: placement, side to move and castling
    rights, no en passant square, clocks 0 and 1. *)
Definition board_of (placement : string) (side : bool) (rights : list Z)
  : Board :=
  mkBoard
    (mkPosition (squares_of_board_fen (list_ascii_of_string placement) [] [])
                side rights None 0 1)
    [].

(** The number of lines of play of a given length. *)
Fixpoint perft (depth : nat) (b : Board) : Z :=
  match depth with
  | O => 1%Z
  | S d =>
    fold_left Z.add (map (fun m => perft d (push b m)) (legal_moves (position b)))
              0%Z
  end.

End PyChess.

(** The calls of the handlers, answered by [PyChess]. *)
#[export] Instance python_chess : RulesEngine := {|
  Board := PyChess.Board;
  Move := PyChess.Move;
  new_board := PyChess.starting_board;
  is_game_over := PyChess.is_game_over;
  result := PyChess.result;
  turn := fun b => PyChess.turn (PyChess.position b);
  fen := PyChess.fen;
  from_uci := PyChess.from_uci;
  is_legal := PyChess.is_legal;
  is_capture := PyChess.is_capture;
  push := PyChess.push
|}.

(** *** Matches used in the examples *)

Module Samples.

(** 1. e4 d5: White can capture on d5. *)
Definition before_capture : @Board python_chess :=
  position_after ["e2e4"; "d7d5"].

(** 1. e4 d5 2. exd5: Black is to move and can recapture. *)
Definition after_capture : @Board python_chess :=
  position_after ["e2e4"; "d7d5"; "e4d5"].

(** 1. f3 e5 2. g4 Qh4#: White is mated. *)
Definition fools_mate : @Board python_chess :=
  position_after ["f2f3"; "e7e5"; "g2g4"; "d8h4"].

Definition e2e4 : @Move python_chess := PyChess.plain 12 28.
Definition e4d5 : @Move python_chess := PyChess.plain 28 35.
Definition d8d5 : @Move python_chess := PyChess.plain 59 35.

End Samples.

(** ** Properties of the handlers *)

Section HandlerFacts.

Context {engine : RulesEngine}.

Lemma world_eta (w : World) :
  mkWorld (game_state w) (game_lock w) = w.
Proof. destruct w; reflexivity. Qed.

Lemma game_state_eta (gs : GameState) :
  mkGameState (board gs) (moves_left gs) = gs.
Proof. destruct gs; reflexivity. Qed.

Lemma unlocked_eta (w : World) :
  game_lock w = false -> mkWorld (game_state w) false = w.
Proof. intros H; rewrite <- H; apply world_eta. Qed.

(** A handler that starts while the lock is held waits. *)
Lemma with_game_lock_held {A} (body : Op A) (w : World) :
  game_lock w = true -> with_game_lock body w = Blocked w.
Proof. intros H; unfold with_game_lock; rewrite H; reflexivity. Qed.

Lemma get_game_state_held (w : World) :
  game_lock w = true -> get_game_state w = Blocked w.
Proof. apply with_game_lock_held. Qed.

Lemma get_game_state_free (w : World) :
  game_lock w = false ->
  get_game_state w = Returned (snapshot (game_state w)) w.
Proof.
  intros H; unfold get_game_state, with_game_lock, bind, get_state, ret.
  rewrite H; cbn. rewrite (unlocked_eta w H). reflexivity.
Qed.

Lemma initialize_game_free (w : World) :
  game_lock w = false -> initialize_game w = Returned tt initial_world.
Proof.
  intros H; unfold initialize_game, with_game_lock, bind.
  rewrite H; reflexivity.
Qed.

Lemma new_game_free (w : World) :
  game_lock w = false ->
  new_game w = Returned (snapshot (game_state initial_world)) initial_world.
Proof.
  intros H; unfold new_game, bind.
  rewrite (initialize_game_free w H).
  apply get_game_state_free; reflexivity.
Qed.

Lemma new_game_held (w : World) :
  game_lock w = true -> new_game w = Blocked w.
Proof.
  intros H; unfold new_game, bind, initialize_game.
  rewrite (with_game_lock_held _ w H); reflexivity.
Qed.

Lemma make_move_held (move_uci : option string) (w : World) :
  game_lock w = true -> make_move move_uci w = Blocked w.
Proof. apply with_game_lock_held. Qed.

(** [make_move] by cases, for a call that gets the lock. *)
Lemma make_move_free (move_uci : option string) (w : World) :
  game_lock w = false ->
  make_move move_uci w =
  let b := board (game_state w) in
  if is_game_over b then Returned (JsonError (error_message GameOverError)) w
  else
    match move_uci with
    | None => Returned (JsonError (error_message MissingMoveError)) w
    | Some uci =>
      if uci =? "" then Returned (JsonError (error_message MissingMoveError)) w
      else
        match from_uci uci with
        | None =>
          Returned (JsonError (error_message (InvalidMoveFormatError uci))) w
        | Some move =>
          if is_legal b move then Blocked (after_move w move)
          else Returned (JsonError (error_message (IllegalMoveError uci))) w
        end
    end.
Proof.
  intros H. unfold make_move, with_game_lock. rewrite H.
  unfold bind at 1. unfold get_state at 1. cbn [game_state board].
  destruct (is_game_over (board (game_state w))).
  { cbn. rewrite (unlocked_eta w H). reflexivity. }
  destruct move_uci as [uci|].
  2:{ cbn. rewrite (unlocked_eta w H). reflexivity. }
  destruct (uci =? "").
  { cbn. rewrite (unlocked_eta w H). reflexivity. }
  destruct (from_uci uci) as [move|].
  2:{ cbn. rewrite (unlocked_eta w H). reflexivity. }
  destruct (is_legal (board (game_state w)) move).
  2:{ cbn. rewrite (unlocked_eta w H). reflexivity. }
  unfold after_move, bind, set_board, set_moves_left, get_state, ret.
  cbn [game_state board moves_left game_lock].
  destruct (moves_left (game_state w) - 1 =? 0)%Z;
    cbn [game_state board moves_left game_lock];
    rewrite get_game_state_held by reflexivity; reflexivity.
Qed.

End HandlerFacts.

Section ControllerProperties.

Context {engine : RulesEngine}.

Lemma accepted_make_move (w : World) (move_uci : option string) (move : Move) :
  game_lock w = false ->
  accepted_on (board (game_state w)) move_uci move ->
  make_move move_uci w = Blocked (after_move w move).
Proof.
  intros Hl (Hgo & Hnp & (uci & -> & Hp) & Hleg).
  rewrite make_move_free by assumption. cbv zeta.
  cbn in Hnp. rewrite Hgo, Hnp, Hp, Hleg. reflexivity.
Qed.

(** What a call of [make_move] that gets the lock does with an accepted
    move: the move is put on the board, with the capture test taken on
    the board before the move; the allowance goes down by one, and when
    that gives 0 it becomes 2 after a capture and 1 otherwise, while a
    positive remainder is kept. *)
Theorem make_move_applies_and_rearms
        (w : World) (move_uci : option string) (move : Move) :
  game_lock w = false ->
  accepted_on (board (game_state w)) move_uci move ->
  let before := game_state w in
  let after := game_state (world_of (make_move move_uci w)) in
  let was_capture := is_capture (board before) move in
  board after = push (board before) move
  /\ (moves_left before - 1 = 0 ->
      moves_left after = if was_capture then 2 else 1)
  /\ (moves_left before - 1 > 0 ->
      moves_left after = moves_left before - 1).
Proof.
  intros Hl Hacc. rewrite (accepted_make_move w move_uci move Hl Hacc).
  cbn [world_of after_move game_state board moves_left].
  split; [reflexivity|]. split; intros H.
  - rewrite H. reflexivity.
  - destruct (Z.eqb_spec (moves_left (game_state w) - 1) 0); [lia|reflexivity].
Qed.

(** Every handler keeps the allowance in {1, 2}, whether it returns or
    is left waiting. *)
Lemma handle_preserves_allowance (w : World) (r : Request) :
  allowance_ok w -> allowance_ok (world_of (handle r w)).
Proof.
  intros Hok. destruct (game_lock w) eqn:Hl.
  - destruct r; cbn [handle];
      [ rewrite get_game_state_held | rewrite new_game_held
      | rewrite make_move_held ]; assumption.
  - destruct r as [| |move_uci]; cbn [handle].
    + rewrite get_game_state_free by assumption. exact Hok.
    + rewrite new_game_free by assumption. left; reflexivity.
    + rewrite make_move_free by assumption. cbv zeta.
      repeat match goal with
             | |- context [if ?c then _ else _] => destruct c eqn:?
             | |- context [match ?c with Some _ => _ | None => _ end] =>
               destruct c eqn:?
             end; try exact Hok.
      unfold allowance_ok, after_move in *.
      cbn [world_of game_state moves_left].
      destruct Hok as [-> | ->]; cbn; [|auto].
      match goal with
      | |- context [is_capture ?b ?mv] => destruct (is_capture b mv)
      end; auto.
Qed.

Lemma run_preserves_allowance (rs : list Request) (w : World) :
  allowance_ok w -> allowance_ok (run rs w).
Proof.
  revert w; induction rs as [|r rs IH]; intros w Hok; cbn [run].
  - exact Hok.
  - apply IH, handle_preserves_allowance, Hok.
Qed.

Lemma initial_allowance : allowance_ok initial_world.
Proof. left; reflexivity. Qed.

(** A positive allowance stays positive under every handler, from any
    state. *)
Lemma handle_keeps_positive (w : World) (r : Request) :
  1 <= moves_left (game_state w) ->
  1 <= moves_left (game_state (world_of (handle r w))).
Proof.
  intros Hpos. destruct (game_lock w) eqn:Hl.
  - destruct r; cbn [handle];
      [ rewrite get_game_state_held | rewrite new_game_held
      | rewrite make_move_held ]; assumption.
  - destruct r as [| |move_uci]; cbn [handle].
    + rewrite get_game_state_free by assumption. exact Hpos.
    + rewrite new_game_free by assumption. cbn. lia.
    + rewrite make_move_free by assumption. cbv zeta.
      repeat match goal with
             | |- context [if ?c then _ else _] => destruct c eqn:?
             | |- context [match ?c with Some _ => _ | None => _ end] =>
               destruct c eqn:?
             end; try exact Hpos.
      cbn [world_of after_move game_state moves_left].
      destruct (Z.eqb_spec (moves_left (game_state w) - 1) 0).
      * match goal with
        | |- context [is_capture ?b ?mv] => destruct (is_capture b mv)
        end; lia.
      * lia.
Qed.

(** C3: after any sequence of requests served from the initial state,
    the allowance is at least 1 whenever the game is not over; each
    handler keeps a positive allowance positive. *)
Theorem moves_left_positive_while_playing :
  (forall (w : World) (r : Request),
      1 <= moves_left (game_state w) ->
      1 <= moves_left (game_state (world_of (handle r w))))
  /\ (forall rs : list Request,
        let w := run rs initial_world in
        is_game_over (board (game_state w)) = false ->
        1 <= moves_left (game_state w)).
Proof.
  split; [exact handle_keeps_positive|].
  intros rs w _.
  destruct (run_preserves_allowance rs initial_world initial_allowance)
    as [H | H]; fold w in H; lia.
Qed.

(** C9: the allowance is 1 or 2 after any sequence of requests served
    from the initial state; every handler keeps it there, since the only
    assignments are the reset to 1, the re-arming to 1 or 2 and the
    decrement, which from 1 is followed by the re-arming and from 2
    gives 1. *)
Theorem moves_left_one_or_two :
  (forall (w : World) (r : Request),
      allowance_ok w -> allowance_ok (world_of (handle r w)))
  /\ (forall rs : list Request,
        moves_left (game_state (run rs initial_world)) = 1
        \/ moves_left (game_state (run rs initial_world)) = 2).
Proof.
  split.
  - exact handle_preserves_allowance.
  - intros rs.
    exact (run_preserves_allowance rs initial_world initial_allowance).
Qed.

(** The four messages tell the four failures, and the token, apart. *)
Lemma error_message_injective (e1 e2 : MoveError) :
  error_message e1 = error_message e2 -> e1 = e2.
Proof.
  destruct e1, e2; cbn; intros H; try discriminate H; try reflexivity;
    injection H as ->; reflexivity.
Qed.

Ltac split_make_move w move_uci :=
  rewrite (make_move_free move_uci w) by assumption; cbv zeta;
  destruct (is_game_over (board (game_state w))) eqn:Hover;
  [| destruct move_uci as [uci|];
     [ destruct (uci =? "") eqn:Hempty;
       [| destruct (from_uci uci) as [move|] eqn:Hparse;
          [ destruct (is_legal (board (game_state w)) move) eqn:Hlegal |] ]
     |] ].

(** What a call of [make_move] that gets the lock answers: it tests, in
    this order, game over, missing token, unparsable token, illegal
    move; the first test that fails decides the error, each error has
    its own message (the last two with the token in it), and an error is
    returned exactly when one of the four tests fails. *)
Theorem make_move_errors_in_order (w : World) (move_uci : option string) :
  game_lock w = false ->
  let b := board (game_state w) in
  let fails_with e :=
    make_move move_uci w = Returned (JsonError (error_message e)) w in
  (is_game_over b = true -> fails_with GameOverError)
  /\ (is_game_over b = false -> not_provided move_uci = true ->
      fails_with MissingMoveError)
  /\ (forall uci,
        is_game_over b = false -> not_provided move_uci = false ->
        move_uci = Some uci -> from_uci uci = None ->
        fails_with (InvalidMoveFormatError uci))
  /\ (forall uci move,
        is_game_over b = false -> not_provided move_uci = false ->
        move_uci = Some uci -> from_uci uci = Some move ->
        is_legal b move = false ->
        fails_with (IllegalMoveError uci))
  /\ (forall e1 e2, error_message e1 = error_message e2 -> e1 = e2)
  /\ ((exists msg w', make_move move_uci w = Returned (JsonError msg) w')
      <-> (is_game_over b = true \/ not_provided move_uci = true
           \/ unparsable move_uci \/ illegal_on b move_uci)).
Proof.
  intros Hl b fails_with. subst b fails_with. cbv beta.
  repeat split.
  - intros H. rewrite (make_move_free move_uci w Hl). cbv zeta.
    rewrite H. reflexivity.
  - intros H Hnp. rewrite (make_move_free move_uci w Hl). cbv zeta.
    rewrite H. destruct move_uci as [uci|]; [|reflexivity].
    cbn in Hnp. rewrite Hnp. reflexivity.
  - intros uci H Hnp -> Hparse. rewrite (make_move_free (Some uci) w Hl).
    cbv zeta. cbn in Hnp. rewrite H, Hnp, Hparse. reflexivity.
  - intros uci move H Hnp -> Hparse Hlegal.
    rewrite (make_move_free (Some uci) w Hl).
    cbv zeta. cbn in Hnp. rewrite H, Hnp, Hparse, Hlegal. reflexivity.
  - apply error_message_injective.
  - intros (msg & w' & H). revert H. split_make_move w move_uci; intros H.
    + left; reflexivity.
    + right; left; exact Hempty.
    + discriminate H.
    + right; right; right. exists uci, move. auto.
    + right; right; left. exists uci. auto.
    + right; left; reflexivity.
  - intros H. split_make_move w move_uci; eauto.
    exfalso. destruct H as [H | [H | [(u & Hu & Hp) | (u & m & Hu & Hp & Hleg)]]].
    + discriminate H.
    + cbn in H. congruence.
    + injection Hu as <-. congruence.
    + injection Hu as <-. congruence.
Qed.

(** C5: a call of [make_move] that fails a precondition leaves the
    board, the allowance and the lock as they were; when it gets the
    lock it answers with an error, and on a finished game that error is
    the game-over one whatever the token. *)
Theorem failed_make_move_changes_nothing
        (w : World) (move_uci : option string) :
  let b := board (game_state w) in
  (is_game_over b = true \/ not_provided move_uci = true
   \/ unparsable move_uci \/ illegal_on b move_uci) ->
  world_of (make_move move_uci w) = w
  /\ (game_lock w = false ->
      exists e, make_move move_uci w = Returned (JsonError (error_message e)) w)
  /\ (game_lock w = false -> is_game_over b = true ->
      make_move move_uci w
      = Returned (JsonError (error_message GameOverError)) w).
Proof.
  intros b Hfail. subst b.
  assert (Hret : game_lock w = false ->
                 exists e, make_move move_uci w
                           = Returned (JsonError (error_message e)) w).
  { intros Hl. split_make_move w move_uci; eauto.
    exfalso.
    destruct Hfail as [H | [H | [(u & Hu & Hp) | (u & m & Hu & Hp & Hleg)]]].
    + discriminate H.
    + cbn in H. congruence.
    + injection Hu as <-. congruence.
    + injection Hu as <-. congruence. }
  split; [|split].
  - destruct (game_lock w) eqn:Hl.
    + rewrite make_move_held by assumption. reflexivity.
    + destruct (Hret eq_refl) as [e ->]. reflexivity.
  - exact Hret.
  - intros Hl Hover. rewrite (make_move_free move_uci w Hl). cbv zeta.
    rewrite Hover. reflexivity.
Qed.

(** What a call of [new_game] that gets the lock does: whatever the
    match state, it returns the snapshot of the starting position with
    allowance 1 and leaves that state behind; a second call right after
    it returns the same snapshot. *)
Theorem new_game_always_fresh (w : World) :
  game_lock w = false ->
  let fresh := mkGameState new_board 1 in
  new_game w = Returned (snapshot fresh) (mkWorld fresh false)
  /\ new_game (world_of (new_game w)) = new_game w.
Proof.
  intros Hl fresh. rewrite (new_game_free w Hl). split; [reflexivity|].
  cbn [world_of]. apply new_game_free. reflexivity.
Qed.

(** C7: the status message is computed from the match state alone: on a
    finished game it names the winner or the draw, with a fallback that
    quotes any other result code; otherwise it names the side to move
    and the allowance, with "move" for exactly 1 and "moves" for any
    other count. *)
Theorem status_message_cases (gs : GameState) :
  let b := board gs in
  let side := if turn b then "White" else "Black" in
  (is_game_over b = true -> result b = "1-0" ->
   get_status_message gs = "Game Over: White wins!")
  /\ (is_game_over b = true -> result b = "0-1" ->
      get_status_message gs = "Game Over: Black wins!")
  /\ (is_game_over b = true -> result b = "1/2-1/2" ->
      get_status_message gs = "Game Over: Draw!")
  /\ (is_game_over b = true ->
      result b <> "1-0" -> result b <> "0-1" -> result b <> "1/2-1/2" ->
      get_status_message gs = "Game Over! " ++ result b)
  /\ (is_game_over b = false -> moves_left gs = 1 ->
      get_status_message gs = side ++ " to move (1 move left)")
  /\ (is_game_over b = false -> moves_left gs <> 1 ->
      get_status_message gs
      = side ++ " to move (" ++ str_of_int (moves_left gs) ++ " moves left)").
Proof.
  intros b side. subst b side. unfold get_status_message.
  repeat split.
  - intros -> ->. reflexivity.
  - intros -> ->. reflexivity.
  - intros -> ->. reflexivity.
  - intros -> H1 H2 H3.
    apply String.eqb_neq in H1, H2, H3. rewrite H1, H2, H3. reflexivity.
  - intros -> ->. reflexivity.
  - intros -> H. apply Z.eqb_neq in H. rewrite H. reflexivity.
Qed.

(** C8: [get_game_state] changes nothing, and when it gets the lock it
    returns the serialized position, the game-over flag and the status
    message of the current match state. *)
Theorem get_game_state_read_only (w : World) :
  world_of (get_game_state w) = w
  /\ (game_lock w = false ->
      let gs := game_state w in
      get_game_state w
      = Returned (JsonState (fen (board gs)) (is_game_over (board gs))
                            (get_status_message gs)) w).
Proof.
  split.
  - destruct (game_lock w) eqn:Hl.
    + rewrite get_game_state_held by assumption. reflexivity.
    + rewrite get_game_state_free by assumption. reflexivity.
  - intros Hl gs. apply get_game_state_free, Hl.
Qed.

(** C10: a call of [make_move] that accepts its move never returns: it
    asks for [game_lock] again, inside [get_game_state], while it still
    holds it.  The move has been applied, the lock stays held, and from
    then on every request is left waiting. *)
Theorem accepted_make_move_deadlocks
        (w : World) (move_uci : option string) (move : Move) :
  game_lock w = false ->
  accepted_on (board (game_state w)) move_uci move ->
  make_move move_uci w = Blocked (after_move w move)
  /\ game_lock (after_move w move) = true
  /\ (forall rs, run rs (after_move w move) = after_move w move)
  /\ (forall r, handle r (after_move w move) = Blocked (after_move w move)).
Proof.
  intros Hl Hacc.
  assert (Hall : forall r,
             handle r (after_move w move) = Blocked (after_move w move)).
  { intros [| |t]; cbn [handle];
      [ apply get_game_state_held | apply new_game_held
      | apply make_move_held ]; reflexivity. }
  split; [apply accepted_make_move; assumption|].
  split; [reflexivity|]. split; [|exact Hall].
  induction rs as [|r rs IH]; cbn [run]; [reflexivity|].
  rewrite Hall. exact IH.
Qed.

(** [new_game] takes the lock twice, once to reset the match and once
    to read it: between the two the lock is free. *)
Lemma new_game_two_critical_sections (w : World) :
  game_lock w = false ->
  exists mid, initialize_game w = Returned tt mid
              /\ game_lock mid = false
              /\ new_game w = get_game_state mid.
Proof.
  intros Hl. exists initial_world.
  split; [apply initialize_game_free, Hl|]. split; [reflexivity|].
  unfold new_game, bind. rewrite (initialize_game_free w Hl). reflexivity.
Qed.

End ControllerProperties.

(** ** The side to move after an accepted move *)

Section TurnAfterPush.

Context {engine : RulesEngine}.

(** [chess.Board.push] ends with [self.turn = not self.turn], for
    every move. *)
Hypothesis push_swaps_turn :
  forall (b : Board) (move : Move), turn (push b move) = negb (turn b).

(** C2: with allowance 2, an accepted move brings the allowance to 1,
    and the board after the push has the other side to move: the
    handler pushes every accepted move and has no step that would keep
    the turn. *)
Theorem second_allowance_move_passes_turn
        (w : World) (move_uci : option string) (move : Move) :
  game_lock w = false ->
  accepted_on (board (game_state w)) move_uci move ->
  moves_left (game_state w) = 2 ->
  let after := game_state (world_of (make_move move_uci w)) in
  moves_left after = 1
  /\ turn (board after) = negb (turn (board (game_state w))).
Proof.
  intros Hl Hacc H2.
  rewrite (accepted_make_move w move_uci move Hl Hacc).
  cbn [world_of after_move game_state board moves_left].
  rewrite H2. split; [reflexivity | apply push_swaps_turn].
Qed.

End TurnAfterPush.

(** ** The handlers on python-chess boards *)

Section OnPythonChess.

Import Samples.

Lemma python_chess_push_swaps_turn (b : PyChess.Board) (move : PyChess.Move) :
  PyChess.turn (PyChess.position (PyChess.push b move))
  = negb (PyChess.turn (PyChess.position b)).
Proof. unfold PyChess.push. destruct (PyChess.is_null move); reflexivity. Qed.

Lemma accepted_e2e4 :
  accepted_on (new_board : @Board python_chess) (Some "e2e4") e2e4.
Proof.
  split; [vm_compute; reflexivity|]. split; [reflexivity|].
  split; [exists "e2e4"; split; [reflexivity | vm_compute; reflexivity]|].
  vm_compute; reflexivity.
Qed.

Lemma accepted_e4d5 : accepted_on before_capture (Some "e4d5") e4d5.
Proof.
  split; [vm_compute; reflexivity|]. split; [reflexivity|].
  split; [exists "e4d5"; split; [reflexivity | vm_compute; reflexivity]|].
  vm_compute; reflexivity.
Qed.

Lemma accepted_d8d5 : accepted_on after_capture (Some "d8d5") d8d5.
Proof.
  split; [vm_compute; reflexivity|]. split; [reflexivity|].
  split; [exists "d8d5"; split; [reflexivity | vm_compute; reflexivity]|].
  vm_compute; reflexivity.
Qed.

(** The move generator counts the lines of play of the usual test
    positions as python-chess does. *)
Example perft_starting_position :
  PyChess.perft 1 PyChess.starting_board = 20
  /\ PyChess.perft 2 PyChess.starting_board = 400
  /\ PyChess.perft 3 PyChess.starting_board = 8902.
Proof. vm_compute. repeat split. Qed.

Example perft_castling_and_en_passant :
  let b :=
    PyChess.board_of
      "r3k2r/p1ppqpb1/bn2pnp1/3PN3/1p2P3/2N2Q1p/PPPBBPPP/R3K2R" PyChess.WHITE
      [PyChess.A1; PyChess.H1; PyChess.A8; PyChess.H8] in
  PyChess.perft 1 b = 48 /\ PyChess.perft 2 b = 2039.
Proof. vm_compute. split; reflexivity. Qed.

Example perft_promotions :
  let b :=
    PyChess.board_of
      "r3k2r/Pppp1ppp/1b3nbN/nP6/BBP1P3/q4N2/Pp1P2PP/R2Q1RK1" PyChess.WHITE
      [PyChess.A8; PyChess.H8] in
  PyChess.perft 1 b = 6 /\ PyChess.perft 2 b = 264.
Proof. vm_compute. split; reflexivity. Qed.

Example fools_mate_is_over :
  fen fools_mate
  = "rnb1kbnr/pppp1ppp/8/4p3/6Pq/5P2/PPPPP2P/RNBQKBNR w KQkq - 1 3"
  /\ is_game_over fools_mate = true
  /\ result fools_mate = "0-1".
Proof. vm_compute. repeat split. Qed.

(** The scenario of the specification: from the starting position
    "e2e4" is applied and leaves allowance 1 with Black to move, "e2e5"
    is refused as illegal and "zz99" as unparsable. *)
Example scenario_e2e4 :
  let after := game_state (world_of (make_move (Some "e2e4") initial_world)) in
  moves_left after = 1
  /\ turn (board after) = PyChess.BLACK
  /\ fen (board after)
     = "rnbqkbnr/pppppppp/8/8/4P3/8/PPPP1PPP/RNBQKBNR b KQkq - 0 1".
Proof. vm_compute. repeat split. Qed.

Example scenario_e2e5 :
  response_of (make_move (Some "e2e5") initial_world)
  = Some (JsonError "Illegal move: e2e5").
Proof. vm_compute. reflexivity. Qed.

Example scenario_zz99 :
  response_of (make_move (Some "zz99") initial_world)
  = Some (JsonError "Invalid move format: zz99").
Proof. vm_compute. reflexivity. Qed.

Example initial_snapshot :
  response_of (get_game_state initial_world)
  = Some (JsonState
            "rnbqkbnr/pppppppp/8/8/8/8/PPPPPPPP/RNBQKBNR w KQkq - 0 1"
            false "White to move (1 move left)").
Proof. vm_compute. reflexivity. Qed.

(** Asking after the push whether the move was a capture gives another
    answer: the moved piece then stands on the target square and
    belongs to the side that is no longer to move. *)
Example capture_test_after_push_differs :
  is_capture (new_board : @Board python_chess) e2e4 = false
  /\ is_capture (push (new_board : @Board python_chess) e2e4) e2e4 = true.
Proof. vm_compute. split; reflexivity. Qed.

Lemma make_move_applies_and_rearms_witness :
  let w := at_rest before_capture 1 in
  game_lock w = false
  /\ accepted_on (board (game_state w)) (Some "e4d5") e4d5
  /\ board (game_state (world_of (make_move (Some "e4d5") w)))
     = push before_capture e4d5
  /\ is_capture before_capture e4d5 = true
  /\ moves_left (game_state (world_of (make_move (Some "e4d5") w))) = 2.
Proof.
  intros w.
  destruct (make_move_applies_and_rearms w (Some "e4d5") e4d5
              eq_refl accepted_e4d5) as (Hboard & Hzero & _).
  split; [reflexivity|]. split; [exact accepted_e4d5|].
  split; [exact Hboard|].
  assert (Hcap : is_capture before_capture e4d5 = true)
    by (vm_compute; reflexivity).
  split; [exact Hcap|].
  rewrite (Hzero eq_refl). cbn [game_state board w at_rest].
  rewrite Hcap. reflexivity.
Defined.

Lemma second_allowance_move_passes_turn_witness :
  let w := at_rest after_capture 2 in
  let after := game_state (world_of (make_move (Some "d8d5") w)) in
  game_lock w = false
  /\ accepted_on (board (game_state w)) (Some "d8d5") d8d5
  /\ moves_left (game_state w) = 2
  /\ turn (board (game_state w)) = PyChess.BLACK
  /\ moves_left after = 1
  /\ turn (board after) = PyChess.WHITE.
Proof.
  intros w after.
  destruct (@second_allowance_move_passes_turn python_chess
              python_chess_push_swaps_turn w (Some "d8d5") d8d5
              eq_refl accepted_d8d5 eq_refl) as (Hmoves & Hturn).
  split; [reflexivity|]. split; [exact accepted_d8d5|].
  split; [reflexivity|].
  assert (Hblack : turn (board (game_state w)) = PyChess.BLACK)
    by (vm_compute; reflexivity).
  split; [exact Hblack|]. split; [exact Hmoves|].
  subst after. rewrite Hturn, Hblack. reflexivity.
Defined.

Lemma moves_left_positive_while_playing_witness :
  let rs := [ApplyMove (Some "e2e4"); GetState] in
  let w := at_rest before_capture 1 in
  let r := ApplyMove (Some "e4d5") in
  is_game_over (board (game_state (run rs initial_world))) = false
  /\ 1 <= moves_left (game_state (run rs initial_world))
  /\ 1 <= moves_left (game_state w)
  /\ 1 <= moves_left (game_state (world_of (handle r w))).
Proof.
  intros rs w r.
  destruct (@moves_left_positive_while_playing python_chess)
    as (Hstep & Hrun).
  assert (H : is_game_over (board (game_state (run rs initial_world))) = false)
    by (vm_compute; reflexivity).
  assert (Hpos : 1 <= moves_left (game_state w)) by (cbn; lia).
  split; [exact H|]. split; [exact (Hrun rs H)|].
  split; [exact Hpos | exact (Hstep w r Hpos)].
Defined.

Lemma make_move_errors_in_order_witness :
  let w := initial_world in
  let mated := at_rest fools_mate 1 in
  game_lock w = false
  /\ game_lock mated = false
  /\ make_move (Some "e2e4") mated
     = Returned (JsonError "Game is over") mated
  /\ make_move None w = Returned (JsonError "Move not provided") w
  /\ make_move (Some "zz99") w
     = Returned (JsonError "Invalid move format: zz99") w
  /\ make_move (Some "e2e5") w
     = Returned (JsonError "Illegal move: e2e5") w.
Proof.
  intros w mated.
  assert (Hplaying : is_game_over (board (game_state w)) = false)
    by (vm_compute; reflexivity).
  split; [reflexivity|]. split; [reflexivity|].
  split; [|split; [|split]].
  - destruct (make_move_errors_in_order mated (Some "e2e4") eq_refl)
      as (Hover & _).
    apply Hover. vm_compute; reflexivity.
  - destruct (make_move_errors_in_order w None eq_refl)
      as (_ & Hmissing & _).
    apply Hmissing; [exact Hplaying | reflexivity].
  - destruct (make_move_errors_in_order w (Some "zz99") eq_refl)
      as (_ & _ & Hformat & _).
    apply (Hformat "zz99");
      [exact Hplaying | reflexivity | reflexivity | vm_compute; reflexivity].
  - destruct (make_move_errors_in_order w (Some "e2e5") eq_refl)
      as (_ & _ & _ & Hillegal & _).
    apply (Hillegal "e2e5" (PyChess.plain 12 36));
      [ exact Hplaying | reflexivity | reflexivity
      | vm_compute; reflexivity | vm_compute; reflexivity ].
Defined.

Lemma illegal_e2e5 :
  illegal_on (new_board : @Board python_chess) (Some "e2e5").
Proof.
  exists "e2e5", (PyChess.plain 12 36).
  split; [reflexivity|]. split; vm_compute; reflexivity.
Qed.

Lemma failed_make_move_changes_nothing_witness :
  let w := initial_world in
  (is_game_over (board (game_state w)) = true
   \/ not_provided (Some "e2e5") = true
   \/ unparsable (Some "e2e5")
   \/ illegal_on (board (game_state w)) (Some "e2e5"))
  /\ game_lock w = false
  /\ world_of (make_move (Some "e2e5") w) = w
  /\ exists e,
       make_move (Some "e2e5") w = Returned (JsonError (error_message e)) w.
Proof.
  intros w.
  assert (Hfail : is_game_over (board (game_state w)) = true
                  \/ not_provided (Some "e2e5") = true
                  \/ unparsable (Some "e2e5")
                  \/ illegal_on (board (game_state w)) (Some "e2e5"))
    by (right; right; right; exact illegal_e2e5).
  destruct (failed_make_move_changes_nothing w (Some "e2e5") Hfail)
    as (Hsame & Herror & _).
  split; [exact Hfail|]. split; [reflexivity|].
  split; [exact Hsame | exact (Herror eq_refl)].
Defined.

Lemma new_game_always_fresh_witness :
  let w := at_rest after_capture 2 in
  let fresh := mkGameState new_board 1 in
  game_lock w = false
  /\ new_game w = Returned (snapshot fresh) (mkWorld fresh false)
  /\ new_game (world_of (new_game w)) = new_game w
  /\ snapshot fresh
     = JsonState "rnbqkbnr/pppppppp/8/8/8/8/PPPPPPPP/RNBQKBNR w KQkq - 0 1"
                 false "White to move (1 move left)".
Proof.
  intros w fresh.
  destruct (new_game_always_fresh w eq_refl) as (Hfresh & Htwice).
  split; [reflexivity|]. split; [exact Hfresh|]. split; [exact Htwice|].
  vm_compute. reflexivity.
Defined.

Lemma status_message_cases_witness :
  get_status_message (mkGameState new_board 1)
  = "White to move (1 move left)"
  /\ get_status_message (mkGameState after_capture 2)
     = "Black to move (2 moves left)"
  /\ get_status_message (mkGameState fools_mate 1)
     = "Game Over: Black wins!".
Proof.
  split; [|split].
  - destruct (status_message_cases (mkGameState new_board 1))
      as (_ & _ & _ & _ & Hone & _).
    rewrite Hone; [| vm_compute; reflexivity | reflexivity].
    vm_compute. reflexivity.
  - destruct (status_message_cases (mkGameState after_capture 2))
      as (_ & _ & _ & _ & _ & Hmany).
    rewrite Hmany; [| vm_compute; reflexivity | discriminate].
    vm_compute. reflexivity.
  - destruct (status_message_cases (mkGameState fools_mate 1))
      as (_ & Hblack & _).
    apply Hblack; vm_compute; reflexivity.
Defined.

Lemma get_game_state_read_only_witness :
  let w := initial_world in
  game_lock w = false
  /\ world_of (get_game_state w) = w
  /\ get_game_state w
     = Returned (JsonState (fen (board (game_state w)))
                           (is_game_over (board (game_state w)))
                           (get_status_message (game_state w))) w.
Proof.
  intros w.
  destruct (get_game_state_read_only w) as (Hsame & Hsnapshot).
  split; [reflexivity|]. split; [exact Hsame | exact (Hsnapshot eq_refl)].
Defined.

Lemma accepted_make_move_deadlocks_witness :
  let w := initial_world in
  let stuck := after_move w e2e4 in
  game_lock w = false
  /\ accepted_on (board (game_state w)) (Some "e2e4") e2e4
  /\ make_move (Some "e2e4") w = Blocked stuck
  /\ game_lock stuck = true
  /\ run [GetState; NewGame; ApplyMove (Some "e7e5")] stuck = stuck
  /\ handle NewGame stuck = Blocked stuck.
Proof.
  intros w stuck.
  destruct (accepted_make_move_deadlocks w (Some "e2e4") e2e4
              eq_refl accepted_e2e4) as (Hblocked & Hheld & Hrun & Hall).
  split; [reflexivity|]. split; [exact accepted_e2e4|].
  split; [exact Hblocked|]. split; [exact Hheld|].
  split; [apply Hrun | apply Hall].
Defined.

(** The first accepted move of a match, traced: the position and the
    allowance are updated, no response is produced, and a later
    [new_game] is left waiting with the match as it was. *)
Example first_move_hangs_the_server :
  let w := run [ApplyMove (Some "e2e4")] initial_world in
  response_of (make_move (Some "e2e4") initial_world) = None
  /\ game_lock w = true
  /\ fen (board (game_state w))
     = "rnbqkbnr/pppppppp/8/8/4P3/8/PPPP1PPP/RNBQKBNR b KQkq - 0 1"
  /\ response_of (new_game w) = None
  /\ fen (board (game_state (run [ApplyMove (Some "e2e4"); NewGame]
                                 initial_world)))
     = "rnbqkbnr/pppppppp/8/8/4P3/8/PPPP1PPP/RNBQKBNR b KQkq - 0 1".
Proof. vm_compute. repeat split. Qed.

Lemma moves_left_one_or_two_witness :
  let w := at_rest after_capture 2 in
  let r := ApplyMove (Some "d8d5") in
  allowance_ok w
  /\ allowance_ok (world_of (handle r w))
  /\ moves_left (game_state (world_of (handle r w))) = 1.
Proof.
  intros w r.
  assert (Hok : allowance_ok w) by (right; reflexivity).
  destruct (@moves_left_one_or_two python_chess) as (Hstep & _).
  split; [exact Hok|]. split; [exact (Hstep w r Hok)|].
  unfold r, handle.
  rewrite (accepted_make_move w (Some "d8d5") d8d5 eq_refl accepted_d8d5).
  reflexivity.
Defined.

End OnPythonChess.

(** ** Further laws of the handlers *)

Section HandlerLaws.

Context {engine : RulesEngine}.

Lemma handle_held (r : Request) (w : World) :
  game_lock w = true -> handle r w = Blocked w.
Proof.
  intros Hl. destruct r; cbn [handle];
    [ apply get_game_state_held | apply new_game_held | apply make_move_held ];
    exact Hl.
Qed.

Lemma run_held (rs : list Request) (w : World) :
  game_lock w = true -> run rs w = w.
Proof.
  intros Hl. induction rs as [|r rs IH]; cbn [run]; [reflexivity|].
  rewrite (handle_held r w Hl). exact IH.
Qed.

(** A move request that gets the lock ends in one of two ways. *)
Lemma make_move_cases (w : World) (move_uci : option string) :
  game_lock w = false ->
  (exists e, make_move move_uci w = Returned (JsonError (error_message e)) w)
  \/ (exists move,
         accepted_on (board (game_state w)) move_uci move
         /\ make_move move_uci w = Blocked (after_move w move)).
Proof.
  intros Hl. rewrite (make_move_free move_uci w Hl). cbv zeta.
  destruct (is_game_over (board (game_state w))) eqn:Hover;
    [left; exists GameOverError; reflexivity|].
  destruct move_uci as [uci|];
    [|left; exists MissingMoveError; reflexivity].
  destruct (uci =? "") eqn:Hempty;
    [left; exists MissingMoveError; reflexivity|].
  destruct (from_uci uci) as [move|] eqn:Hparse;
    [|left; exists (InvalidMoveFormatError uci); reflexivity].
  destruct (is_legal (board (game_state w)) move) eqn:Hlegal;
    [|left; exists (IllegalMoveError uci); reflexivity].
  right. exists move. split; [|reflexivity].
  split; [exact Hover|]. split; [exact Hempty|].
  split; [exists uci; split; [reflexivity | exact Hparse] | exact Hlegal].
Qed.



(** Where a run from the initial world can end. *)
Lemma run_from_start (rs : list Request) :
  run rs initial_world = initial_world
  \/ exists move_uci move,
       In (ApplyMove move_uci) rs
       /\ accepted_on new_board move_uci move
       /\ run rs initial_world = after_move initial_world move.
Proof.
  induction rs as [|r rs IH]; cbn [run]; [left; reflexivity|].
  assert (Hstay : world_of (handle r initial_world) = initial_world ->
                  run rs (world_of (handle r initial_world)) = initial_world
                  \/ exists move_uci move,
                       In (ApplyMove move_uci) (r :: rs)
                       /\ accepted_on new_board move_uci move
                       /\ run rs (world_of (handle r initial_world))
                          = after_move initial_world move).
  { intros ->. destruct IH as [IH | (t & m & Hin & Hacc & Hrun)];
      [left; exact IH|].
    right. exists t, m. split; [right; exact Hin|]. split; assumption. }
  destruct r as [| |t]; cbn [handle] in *.
  - apply Hstay. rewrite get_game_state_free by reflexivity. reflexivity.
  - apply Hstay. rewrite new_game_free by reflexivity. reflexivity.
  - destruct (make_move_cases initial_world t eq_refl)
      as [(e & He) | (m & Hacc & Hb)].
    + apply Hstay. rewrite He. reflexivity.
    + right. exists t, m. split; [left; reflexivity|].
      split; [exact Hacc|]. rewrite Hb. cbn [world_of].
      apply run_held. reflexivity.
Qed.


(** X5: a move request is never answered with a snapshot: whenever
    [make_move] returns, the response is one of the four errors. *)
Theorem make_move_answers_only_errors
        (w : World) (move_uci : option string) (resp : Response) (w' : World) :
  make_move move_uci w = Returned resp w' ->
  exists e, resp = JsonError (error_message e).
Proof.
  intros H. destruct (game_lock w) eqn:Hl.
  - rewrite (make_move_held move_uci w Hl) in H. discriminate H.
  - destruct (make_move_cases w move_uci Hl) as [(e & He) | (m & _ & Hb)];
      rewrite ?He, ?Hb in H; [|discriminate H].
    injection H as <- _. exists e. reflexivity.
Qed.

(** X6: the snapshot a state request or a reset returns describes the
    match state the handler leaves behind, and a state request served
    right after a reset returns the snapshot the reset returned. *)
Theorem returned_snapshots_are_current (w : World) (resp : Response) (w' : World) :
  (get_game_state w = Returned resp w' -> resp = snapshot (game_state w'))
  /\ (new_game w = Returned resp w' ->
      resp = snapshot (game_state w')
      /\ get_game_state w' = Returned resp w').
Proof.
  split; intros H; destruct (game_lock w) eqn:Hl.
  - rewrite (get_game_state_held w Hl) in H. discriminate H.
  - rewrite (get_game_state_free w Hl) in H. injection H as <- <-. reflexivity.
  - rewrite (new_game_held w Hl) in H. discriminate H.
  - rewrite (new_game_free w Hl) in H. injection H as <- <-.
    split; [reflexivity|]. apply get_game_state_free. reflexivity.
Qed.


(** X10: on a finished game nothing but a reset changes the world: any
    sequence of state and move requests leaves board, allowance and lock
    as they were. *)
Theorem finished_game_is_frozen (w : World) (rs : list Request) :
  is_game_over (board (game_state w)) = true ->
  ~ In NewGame rs ->
  run rs w = w.
Proof.
  intros Hover. induction rs as [|r rs IH]; intros Hno; cbn [run];
    [reflexivity|].
  assert (Hsame : world_of (handle r w) = w).
  { destruct (game_lock w) eqn:Hl;
      [rewrite (handle_held r w Hl); reflexivity|].
    destruct r as [| |t]; cbn [handle].
    - rewrite (get_game_state_free w Hl). reflexivity.
    - exfalso. apply Hno. left; reflexivity.
    - rewrite (make_move_free t w Hl). cbv zeta. rewrite Hover. reflexivity. }
  rewrite Hsame. apply IH. intros Hin. apply Hno. right; exact Hin.
Qed.

End HandlerLaws.

(** ** The status message as an encoding of the match state *)

Section StatusMessage.

Context {engine : RulesEngine}.

Lemma digits_have_no_space (d : Decimal.uint) :
  ~ In " "%char (list_ascii_of_string (NilEmpty.string_of_uint d)).
Proof.
  induction d; cbn; intros H; try contradiction;
    destruct H as [H | H]; try discriminate H; auto.
Qed.

Lemma str_of_int_has_no_space (n : Z) :
  ~ In " "%char (list_ascii_of_string (str_of_int n)).
Proof.
  unfold str_of_int, NilZero.string_of_int, NilZero.string_of_uint.
  destruct (Z.to_int n) as [d | d].
  - destruct d; try apply (digits_have_no_space);
      cbn; intros [H | H]; [discriminate H | contradiction].
  - cbn [list_ascii_of_string]. intros [H | H]; [discriminate H|].
    revert H. destruct d; try apply (digits_have_no_space);
      cbn; intros [H | H]; [discriminate H | contradiction].
Qed.

Lemma to_int_is_not_nil (n : Z) :
  Z.to_int n <> Decimal.Pos Decimal.Nil /\ Z.to_int n <> Decimal.Neg Decimal.Nil.
Proof.
  assert (E : Z.to_int n = Decimal.norm (Z.to_int n))
    by (rewrite <- DecimalZ.to_of, DecimalZ.of_to; reflexivity).
  rewrite E.
  destruct (Z.to_int n) as [d | d]; cbn; unfold Decimal.unorm.
  - destruct (Decimal.nzhead d); split; discriminate.
  - destruct (Decimal.nzhead d); split; discriminate.
Qed.

(** Two integers with the same decimal text are equal. *)
Lemma str_of_int_injective (a b : Z) : str_of_int a = str_of_int b -> a = b.
Proof.
  unfold str_of_int. intros H. apply DecimalZ.to_int_inj.
  destruct (to_int_is_not_nil a) as (Ha1 & Ha2).
  destruct (to_int_is_not_nil b) as (Hb1 & Hb2).
  pose proof (NilZero.isi (Z.to_int a) Ha1 Ha2) as Ia.
  pose proof (NilZero.isi (Z.to_int b) Hb1 Hb2) as Ib.
  rewrite H in Ia. rewrite Ia in Ib. injection Ib as ->. reflexivity.
Qed.

(** A text without spaces followed by a space is read back without
    ambiguity. *)
Lemma split_at_first_space (a b x y : string) :
  ~ In " "%char (list_ascii_of_string a) ->
  ~ In " "%char (list_ascii_of_string b) ->
  a ++ String " " x = b ++ String " " y ->
  a = b.
Proof.
  revert b. induction a as [|c a IH]; intros [|c' b] Ha Hb H; cbn in *.
  - reflexivity.
  - injection H as <- _. exfalso. apply Hb. left; reflexivity.
  - injection H as -> _. exfalso. apply Ha. left; reflexivity.
  - injection H as -> H. f_equal. apply IH; auto.
Qed.

Lemma status_starts_with_game_over (gs : GameState) :
  String.prefix "Game Over" (get_status_message gs) = is_game_over (board gs).
Proof.
  unfold get_status_message.
  destruct (is_game_over (board gs)).
  - destruct (result (board gs) =? "1-0"); [reflexivity|].
    destruct (result (board gs) =? "0-1"); [reflexivity|].
    destruct (result (board gs) =? "1/2-1/2"); reflexivity.
  - destruct (turn (board gs)); reflexivity.
Qed.

(** X8: the status message begins with "Game Over" exactly when the game
    is over, so in every snapshot a handler returns the message and the
    game-over flag agree. *)
Theorem status_message_agrees_with_flag :
  (forall gs : GameState,
      String.prefix "Game Over" (get_status_message gs)
      = is_game_over (board gs))
  /\ (forall (r : Request) (w w' : World) (position : string)
             (isGameOver : bool) (statusMessage : string),
         handle r w = Returned (JsonState position isGameOver statusMessage) w' ->
         String.prefix "Game Over" statusMessage = isGameOver).
Proof.
  split; [exact status_starts_with_game_over|].
  intros r w w' position isGameOver statusMessage H.
  destruct (game_lock w) eqn:Hl;
    [rewrite (handle_held r w Hl) in H; discriminate H|].
  destruct r as [| |t]; cbn [handle] in H.
  - rewrite (get_game_state_free w Hl) in H. injection H as _ <- <- _.
    apply status_starts_with_game_over.
  - rewrite (new_game_free w Hl) in H. injection H as _ <- <- _.
    apply status_starts_with_game_over.
  - destruct (make_move_cases w t Hl) as [(e & He) | (m & _ & Hb)];
      rewrite ?He, ?Hb in H; discriminate H.
Qed.

(** X9: while the game is not over, the status message determines the
    side to move and the allowance: two match states with the same
    message have the same side to move and the same [moves_left]. *)
Theorem status_message_determines_turn_and_allowance (gs1 gs2 : GameState) :
  is_game_over (board gs1) = false ->
  is_game_over (board gs2) = false ->
  get_status_message gs1 = get_status_message gs2 ->
  turn (board gs1) = turn (board gs2) /\ moves_left gs1 = moves_left gs2.
Proof.
  unfold get_status_message. intros -> -> H.
  assert (Hn1 := str_of_int_has_no_space (moves_left gs1)).
  assert (Hn2 := str_of_int_has_no_space (moves_left gs2)).
  remember (str_of_int (moves_left gs1)) as s1 eqn:E1.
  remember (str_of_int (moves_left gs2)) as s2 eqn:E2.
  assert (Hs : s1 = s2).
  { destruct (turn (board gs1)), (turn (board gs2));
      cbn [append] in H; try discriminate H;
      injection H as H;
      exact (split_at_first_space _ _ _ _ Hn1 Hn2 H). }
  split.
  - subst s1 s2. rewrite Hs in H.
    destruct (turn (board gs1)), (turn (board gs2));
      try reflexivity; cbn [append] in H; discriminate H.
  - apply str_of_int_injective. subst s1 s2. exact Hs.
Qed.

End StatusMessage.

(** ** The first move of a match *)

Section FirstMove.

Context {engine : RulesEngine}.

(** X4: when no legal move of the starting board is a capture, as in
    chess, the allowance is 1 after any sequence of requests served from
    the initial state: the only move that is ever applied is a first
    move, and it re-arms the allowance to 1. *)
Theorem capture_bonus_is_never_granted :
  (forall move : Move,
      is_legal new_board move = true -> is_capture new_board move = false) ->
  forall rs : list Request,
    moves_left (game_state (run rs initial_world)) = 1.
Proof.
  intros Hquiet rs.
  destruct (run_from_start rs) as [-> | (t & m & _ & Hacc & ->)];
    [reflexivity|].
  destruct Hacc as (_ & _ & _ & Hlegal).
  cbn [after_move initial_world game_state board moves_left].
  rewrite (Hquiet m Hlegal). reflexivity.
Qed.

End FirstMove.

(** ** The further laws on python-chess boards *)

Section LawsOnPythonChess.

Import Samples.

Lemma piece_type_eqb_eq (a b : PyChess.PieceType) :
  PyChess.piece_type_eqb a b = true -> a = b.
Proof. destruct a, b; cbn; intros H; try discriminate H; reflexivity. Qed.

Lemma promotion_eqb_eq (a b : option PyChess.PieceType) :
  PyChess.option_eqb PyChess.piece_type_eqb a b = true -> a = b.
Proof.
  destruct a, b; cbn; intros H; try discriminate H; [|reflexivity].
  f_equal. apply piece_type_eqb_eq, H.
Qed.

Lemma move_eqb_eq (a b : PyChess.Move) : PyChess.move_eqb a b = true -> a = b.
Proof.
  destruct a, b. unfold PyChess.move_eqb. cbn. intros H.
  apply andb_prop in H as [H Hd]. apply andb_prop in H as [H Hp].
  apply andb_prop in H as [Hf Ht].
  apply Z.eqb_eq in Hf, Ht. apply promotion_eqb_eq in Hp, Hd.
  subst. reflexivity.
Qed.

Lemma own_piece_is_on_the_board
      (sqs : list (option PyChess.Piece)) (c : bool) (s : Z) :
  PyChess.own sqs c s = true -> In s PyChess.all_squares.
Proof.
  unfold PyChess.own, PyChess.piece_at.
  destruct ((0 <=? s)%Z && (s <? 64)%Z) eqn:Hr; [|discriminate].
  intros _. apply andb_prop in Hr as [H0 H1].
  apply Z.leb_le in H0. apply Z.ltb_lt in H1.
  unfold PyChess.all_squares. apply in_map_iff.
  exists (Z.to_nat s). split; [lia | apply in_seq; lia].
Qed.

(** No legal move of the starting position is a capture. *)
Lemma first_move_is_quiet (move : PyChess.Move) :
  PyChess.is_legal PyChess.starting_board move = true ->
  PyChess.is_capture PyChess.starting_board move = false.
Proof.
  intros H. unfold PyChess.is_legal in H. apply andb_prop in H as [Hps _].
  unfold PyChess.is_pseudo_legal in Hps.
  apply andb_prop in Hps as [Hps Hgen]. apply andb_prop in Hps as [_ Hown].
  set (p := PyChess.position PyChess.starting_board) in *.
  assert (Hc : PyChess.castling_moves p = []) by (vm_compute; reflexivity).
  rewrite Hc in Hgen. cbn [existsb orb] in Hgen.
  apply existsb_exists in Hgen as (m' & Hin & Heq).
  apply move_eqb_eq in Heq. subst m'.
  assert (Hall :
            forallb
              (fun s =>
                 forallb
                   (fun mv => negb (PyChess.is_capture PyChess.starting_board mv))
                   (PyChess.piece_moves p s))
              PyChess.all_squares = true) by (vm_compute; reflexivity).
  rewrite forallb_forall in Hall.
  specialize (Hall _ (own_piece_is_on_the_board _ _ _ Hown)).
  rewrite forallb_forall in Hall. apply Hall in Hin.
  apply negb_true_iff in Hin. exact Hin.
Qed.

Lemma playing_at_start :
  is_game_over (board (game_state (initial_world (engine := python_chess))))
  = false.
Proof. vm_compute. reflexivity. Qed.

Lemma refused_e2e5 :
  make_move (Some "e2e5") initial_world
  = Returned (JsonError "Illegal move: e2e5") initial_world.
Proof.
  rewrite make_move_free by reflexivity. cbv zeta.
  rewrite playing_at_start.
  assert (H2 : ("e2e5" =? "") = false) by reflexivity. rewrite H2.
  assert (H3 : from_uci "e2e5" = Some (PyChess.plain 12 36))
    by (vm_compute; reflexivity).
  rewrite H3.
  assert (H4 : is_legal (board (game_state initial_world)) (PyChess.plain 12 36)
               = false) by (vm_compute; reflexivity).
  rewrite H4. reflexivity.
Qed.



Lemma capture_bonus_is_never_granted_witness :
  let rs := [ApplyMove (Some "e2e4"); ApplyMove (Some "d7d5");
             ApplyMove (Some "e4d5"); GetState] in
  (forall move : PyChess.Move,
      PyChess.is_legal PyChess.starting_board move = true ->
      PyChess.is_capture PyChess.starting_board move = false)
  /\ moves_left (game_state (run rs initial_world)) = 1.
Proof.
  intros rs. split; [exact first_move_is_quiet|].
  exact (@capture_bonus_is_never_granted python_chess first_move_is_quiet rs).
Defined.

Lemma make_move_answers_only_errors_witness :
  make_move (Some "e2e5") initial_world
  = Returned (JsonError "Illegal move: e2e5") initial_world
  /\ exists e, JsonError "Illegal move: e2e5" = JsonError (error_message e).
Proof.
  split; [exact refused_e2e5|].
  exact (make_move_answers_only_errors initial_world (Some "e2e5")
           _ _ refused_e2e5).
Defined.

Lemma returned_snapshots_are_current_witness :
  let w := at_rest after_capture 2 in
  let fresh := snapshot (mkGameState new_board 1) in
  new_game w = Returned fresh initial_world
  /\ get_game_state initial_world = Returned fresh initial_world.
Proof.
  intros w fresh.
  assert (H : new_game w = Returned fresh initial_world)
    by (apply new_game_free; reflexivity).
  split; [exact H|].
  exact (proj2 (proj2 (returned_snapshots_are_current w fresh initial_world) H)).
Defined.

Lemma status_message_determines_turn_and_allowance_witness :
  let gs1 := mkGameState new_board 1 in
  let gs2 := mkGameState (position_after ["e2e4"; "e7e5"]) 1 in
  is_game_over (board gs1) = false
  /\ is_game_over (board gs2) = false
  /\ get_status_message gs1 = get_status_message gs2
  /\ turn (board gs1) = turn (board gs2)
  /\ moves_left gs1 = moves_left gs2.
Proof.
  intros gs1 gs2.
  assert (H1 : is_game_over (board gs1) = false) by (vm_compute; reflexivity).
  assert (H2 : is_game_over (board gs2) = false) by (vm_compute; reflexivity).
  assert (H : get_status_message gs1 = get_status_message gs2)
    by (vm_compute; reflexivity).
  split; [exact H1|]. split; [exact H2|]. split; [exact H|].
  exact (status_message_determines_turn_and_allowance gs1 gs2 H1 H2 H).
Defined.

Lemma finished_game_is_frozen_witness :
  let w := at_rest fools_mate 1 in
  let rs := [GetState; ApplyMove (Some "e2e4"); ApplyMove None; GetState] in
  is_game_over (board (game_state w)) = true
  /\ ~ In NewGame rs
  /\ run rs w = w.
Proof.
  intros w rs.
  assert (Hover : is_game_over (board (game_state w)) = true)
    by (vm_compute; reflexivity).
  assert (Hno : ~ In NewGame rs).
  { intros [H | [H | [H | [H | H]]]]; try discriminate H; exact H. }
  split; [exact Hover|]. split; [exact Hno|].
  exact (finished_game_is_frozen w rs Hover Hno).
Defined.

End LawsOnPythonChess.

(** ** Requests served after an accepted move

    An accepted move leaves [game_lock] held for good.  The three
    theorems below follow the requests that come next. *)

Section AfterAnAcceptedMove.

Context {engine : RulesEngine}.

Lemma stuck_after_accepted_move
      (w : World) (move_uci : option string) (move : Move) :
  game_lock w = false ->
  accepted_on (board (game_state w)) move_uci move ->
  world_of (make_move move_uci w) = after_move w move
  /\ game_lock (world_of (make_move move_uci w)) = true.
Proof.
  intros Hl Hacc. rewrite (accepted_make_move w move_uci move Hl Hacc).
  split; reflexivity.
Qed.

(** C1, on the calls where the code departs from it: once a move has
    been accepted, a further move that passes all four preconditions on
    the board as it then stands is not applied.  The call waits for the
    lock; the board keeps the first move only and the allowance is not
    decremented. *)
Theorem later_accepted_move_is_not_applied
        (w : World) (first next : option string) (move move' : Move) :
  game_lock w = false ->
  accepted_on (board (game_state w)) first move ->
  let stuck := world_of (make_move first w) in
  accepted_on (board (game_state stuck)) next move' ->
  make_move next stuck = Blocked stuck
  /\ board (game_state (world_of (make_move next stuck)))
     = push (board (game_state w)) move
  /\ moves_left (game_state (world_of (make_move next stuck)))
     = moves_left (game_state stuck).
Proof.
  intros Hl Hacc stuck _.
  destruct (stuck_after_accepted_move w first move Hl Hacc) as (Hw & Hheld).
  fold stuck in Hw, Hheld.
  rewrite (make_move_held next stuck Hheld). cbn [world_of].
  split; [reflexivity|]. split; [|reflexivity].
  rewrite Hw. reflexivity.
Qed.

(** C4, on the calls where the code departs from it: once a move has been
    accepted, no call of [make_move] returns an error any more, whatever
    the token and the board: none of the four tests is reached. *)
Theorem no_error_after_an_accepted_move
        (w : World) (first next : option string) (move : Move) :
  game_lock w = false ->
  accepted_on (board (game_state w)) first move ->
  let stuck := world_of (make_move first w) in
  response_of (make_move next stuck) = None
  /\ ~ (exists msg w', make_move next stuck = Returned (JsonError msg) w').
Proof.
  intros Hl Hacc stuck.
  destruct (stuck_after_accepted_move w first move Hl Hacc) as (_ & Hheld).
  fold stuck in Hheld.
  rewrite (make_move_held next stuck Hheld).
  split; [reflexivity|]. intros (msg & w' & H). discriminate H.
Qed.

(** C6, on the histories where the code departs from it: after an
    accepted move, [new_game] returns no snapshot and resets nothing;
    the board still carries the move and the allowance is the one the
    move left. *)
Theorem new_game_waits_after_an_accepted_move
        (w : World) (first : option string) (move : Move) :
  game_lock w = false ->
  accepted_on (board (game_state w)) first move ->
  let after := run [ApplyMove first; NewGame] w in
  response_of (new_game (world_of (make_move first w))) = None
  /\ after = after_move w move
  /\ board (game_state after) = push (board (game_state w)) move.
Proof.
  intros Hl Hacc after. subst after.
  destruct (stuck_after_accepted_move w first move Hl Hacc) as (Hw & Hheld).
  cbn [run handle]. rewrite (new_game_held _ Hheld). cbn [world_of response_of].
  split; [reflexivity|]. rewrite Hw. split; reflexivity.
Qed.

End AfterAnAcceptedMove.

Section AfterTheFirstMoveOfAGame.

Import Samples.

Lemma after_e2e4 :
  world_of (make_move (Some "e2e4") initial_world) = after_move initial_world e2e4.
Proof.
  rewrite (accepted_make_move initial_world (Some "e2e4") e2e4
             eq_refl accepted_e2e4).
  reflexivity.
Qed.

Lemma accepted_e7e5 :
  accepted_on (push (new_board : @Board python_chess) e2e4)
              (Some "e7e5") (PyChess.plain 52 36).
Proof.
  split; [vm_compute; reflexivity|]. split; [reflexivity|].
  split; [exists "e7e5"; split; [reflexivity | vm_compute; reflexivity]|].
  vm_compute; reflexivity.
Qed.

Lemma later_accepted_move_is_not_applied_witness :
  let w := initial_world in
  let stuck := world_of (make_move (Some "e2e4") w) in
  let after := world_of (make_move (Some "e7e5") stuck) in
  game_lock w = false
  /\ accepted_on (board (game_state w)) (Some "e2e4") e2e4
  /\ accepted_on (board (game_state stuck)) (Some "e7e5") (PyChess.plain 52 36)
  /\ make_move (Some "e7e5") stuck = Blocked stuck
  /\ board (game_state after) = push new_board e2e4
  /\ fen (board (game_state after))
     = "rnbqkbnr/pppppppp/8/8/4P3/8/PPPP1PPP/RNBQKBNR b KQkq - 0 1"
  /\ moves_left (game_state after) = moves_left (game_state stuck).
Proof.
  intros w stuck after.
  assert (Hnext : accepted_on (board (game_state stuck))
                              (Some "e7e5") (PyChess.plain 52 36)).
  { unfold stuck, w. rewrite after_e2e4. exact accepted_e7e5. }
  destruct (later_accepted_move_is_not_applied
              w (Some "e2e4") (Some "e7e5") e2e4 (PyChess.plain 52 36)
              eq_refl accepted_e2e4 Hnext) as (Hblocked & Hboard & Hmoves).
  split; [reflexivity|]. split; [exact accepted_e2e4|].
  split; [exact Hnext|]. split; [exact Hblocked|].
  split; [exact Hboard|]. split; [|exact Hmoves].
  unfold after, stuck. rewrite Hboard. vm_compute. reflexivity.
Defined.

Lemma no_error_after_an_accepted_move_witness :
  let w := initial_world in
  let stuck := world_of (make_move (Some "e2e4") w) in
  game_lock w = false
  /\ accepted_on (board (game_state w)) (Some "e2e4") e2e4
  /\ not_provided None = true
  /\ response_of (make_move None stuck) = None
  /\ @from_uci python_chess "zz99" = None
  /\ response_of (make_move (Some "zz99") stuck) = None
  /\ ~ (exists msg w', make_move (Some "zz99") stuck
                       = Returned (JsonError msg) w').
Proof.
  intros w stuck.
  pose proof (fun next =>
                no_error_after_an_accepted_move
                  w (Some "e2e4") next e2e4 eq_refl accepted_e2e4) as H.
  split; [reflexivity|]. split; [exact accepted_e2e4|].
  split; [reflexivity|]. split; [exact (proj1 (H None))|].
  split; [vm_compute; reflexivity|].
  split; [exact (proj1 (H (Some "zz99"))) | exact (proj2 (H (Some "zz99")))].
Defined.

Lemma new_game_waits_after_an_accepted_move_witness :
  let w := initial_world in
  let after := run [ApplyMove (Some "e2e4"); NewGame] w in
  game_lock w = false
  /\ accepted_on (board (game_state w)) (Some "e2e4") e2e4
  /\ response_of (new_game (world_of (make_move (Some "e2e4") w))) = None
  /\ board (game_state after) = push new_board e2e4
  /\ fen (board (game_state after))
     = "rnbqkbnr/pppppppp/8/8/4P3/8/PPPP1PPP/RNBQKBNR b KQkq - 0 1"
  /\ fen (new_board : @Board python_chess)
     = "rnbqkbnr/pppppppp/8/8/8/8/PPPPPPPP/RNBQKBNR w KQkq - 0 1".
Proof.
  intros w after.
  destruct (new_game_waits_after_an_accepted_move
              w (Some "e2e4") e2e4 eq_refl accepted_e2e4)
    as (Hnone & _ & Hboard).
  split; [reflexivity|]. split; [exact accepted_e2e4|].
  split; [exact Hnone|]. split; [exact Hboard|].
  split; [|vm_compute; reflexivity].
  unfold after. rewrite Hboard. vm_compute. reflexivity.
Defined.

End AfterTheFirstMoveOfAGame.
